(** * java_entity_gen: a Rocq model of the MySQL-table-to-Java-class generator

    Shallow embedding of [java_entity_gen.py].  Python [str] values are
    modelled by [string] restricted to ASCII text (MySQL identifiers, type
    keywords and the generated Java source are ASCII); the case functions
    leave every character outside [A-Z] / [a-z] unchanged.  Python
    exceptions are modelled by the [result] type, the [dict] and [set]
    objects by stdpp's [gmap] and [gset]. *)

From Stdlib Require Import ZArith Ascii String List Lia.
From stdpp Require Import gmap strings list.

Local Open Scope Z_scope.

(** ** Python exceptions *)

Inductive exn : Type :=
  | ValueError (msg : string)
  | KeyError (key : string)
  | IndexError (msg : string).

Inductive result (A : Type) : Type :=
  | Ok (a : A)
  | Raise (e : exn).

Arguments Ok {A} a.
Arguments Raise {A} e.

Global Instance result_ret : MRet result := λ A a, Ok a.

Global Instance result_bind : MBind result := λ A B k r,
  match r with
  | Ok a => k a
  | Raise e => Raise e
  end.

(** Name of the Python class of an exception. *)
Definition exn_class (e : exn) : string :=
  match e with
  | ValueError _ => "ValueError"
  | KeyError _ => "KeyError"
  | IndexError _ => "IndexError"
  end.

(** Message of an exception ([KeyError] shows its key). *)
Definition exn_message (e : exn) : string :=
  match e with
  | ValueError msg => msg
  | KeyError key => key
  | IndexError msg => msg
  end.

(** ** Python string primitives *)

Module Py.

Definition nl : string := String "010" "".
Definition dquote : string := String "034" "".

Definition is_upper (c : ascii) : bool :=
  let n := nat_of_ascii c in (65 <=? n)%nat && (n <=? 90)%nat.
Definition is_lower (c : ascii) : bool :=
  let n := nat_of_ascii c in (97 <=? n)%nat && (n <=? 122)%nat.
Definition is_digit (c : ascii) : bool :=
  let n := nat_of_ascii c in (48 <=? n)%nat && (n <=? 57)%nat.

(** [\w] of the [re] module on ASCII text: letters, digits, underscore. *)
Definition is_word (c : ascii) : bool :=
  is_upper c || is_lower c || is_digit c || Ascii.eqb c "_".

(** [\s] and [str.strip]: TAB, LF, VT, FF, CR, FS, GS, RS, US, SPACE. *)
Definition is_space (c : ascii) : bool :=
  let n := nat_of_ascii c in
  ((9 <=? n)%nat && (n <=? 13)%nat) || ((28 <=? n)%nat && (n <=? 32)%nat).

Definition lower_char (c : ascii) : ascii :=
  if is_upper c then ascii_of_nat (nat_of_ascii c + 32) else c.
Definition upper_char (c : ascii) : ascii :=
  if is_lower c then ascii_of_nat (nat_of_ascii c - 32) else c.

Fixpoint map_chars (f : ascii → ascii) (s : string) : string :=
  match s with
  | EmptyString => EmptyString
  | String c r => String (f c) (map_chars f r)
  end.

(** [s.lower()] and [s.upper()] *)
Definition lower : string → string := map_chars lower_char.
Definition upper : string → string := map_chars upper_char.

(** [s[lo:]] for [0 <= lo] *)
Fixpoint drop (lo : nat) (s : string) : string :=
  match lo, s with
  | O, _ => s
  | S n, EmptyString => EmptyString
  | S n, String _ r => drop n r
  end.

(** [s[:hi]] for [0 <= hi] *)
Fixpoint take (hi : nat) (s : string) : string :=
  match hi, s with
  | O, _ => EmptyString
  | S n, EmptyString => EmptyString
  | S n, String c r => String c (take n r)
  end.

(** [s[lo:hi]] for [0 <= lo], [0 <= hi]: out-of-range bounds are clamped
    and [hi <= lo] gives the empty string; a slice never raises. *)
Definition slice (s : string) (lo hi : nat) : string :=
  take (hi - lo) (drop lo s).

(** [s[i]] for [0 <= i]: raises [IndexError] out of range. *)
Definition index (s : string) (i : nat) : result ascii :=
  match String.get i s with
  | Some c => Ok c
  | None => Raise (IndexError "string index out of range")
  end.

(** [s.replace(c, '')] for a one-character [c] *)
Fixpoint remove_char (c : ascii) (s : string) : string :=
  match s with
  | EmptyString => EmptyString
  | String d r => if Ascii.eqb d c then remove_char c r
                  else String d (remove_char c r)
  end.

(** [s.lstrip()], [s.rstrip()], [s.strip()] *)
Fixpoint lstrip (s : string) : string :=
  match s with
  | EmptyString => EmptyString
  | String c r => if is_space c then lstrip r else s
  end.

Fixpoint rstrip (s : string) : string :=
  match s with
  | EmptyString => EmptyString
  | String c r =>
      match rstrip r with
      | EmptyString => if is_space c then EmptyString else String c EmptyString
      | r' => String c r'
      end
  end.

Definition strip (s : string) : string := rstrip (lstrip s).

(** [s.startswith(p)] *)
Definition startswith (s p : string) : bool := String.prefix p s.

(** [s.rfind(p)]: the highest index at which [p] starts in [s], [-1]
    when there is none. *)
Fixpoint rfind_from (i : nat) (s p : string) : Z :=
  match s with
  | EmptyString => if startswith s p then Z.of_nat i else -1
  | String _ r =>
      let later := rfind_from (S i) r p in
      if 0 <=? later then later
      else if startswith s p then Z.of_nat i else -1
  end.

Definition rfind (s p : string) : Z := rfind_from 0 s p.

(** [s.find(p)]: the lowest index at which [p] starts in [s], [-1]
    when there is none. *)
Fixpoint find_from (i : nat) (s p : string) : Z :=
  if startswith s p then Z.of_nat i
  else match s with
       | EmptyString => -1
       | String _ r => find_from (S i) r p
       end.

Definition find (s p : string) : Z := find_from 0 s p.

(** [s.replace(a, b)] for one-character [a] and [b] *)
Definition replace_char (a b : ascii) (s : string) : string :=
  map_chars (λ c, if Ascii.eqb c a then b else c) s.

(** [s.endswith(p)] *)
Definition endswith (s p : string) : bool :=
  (String.length p <=? String.length s)%nat
  && String.eqb (drop (String.length s - String.length p) s) p.

(** Truth value of a [str]: the empty string is false. *)
Definition truthy (s : string) : bool :=
  match s with EmptyString => false | String _ _ => true end.

(** Truth value of an optional [str]: [None] and [''] are false. *)
Definition truthy_opt (o : option string) : bool :=
  match o with Some s => truthy s | None => false end.

End Py.

(** ** Module constants and the type mapping (lines 12-29) *)

Definition T : string := "    ".
Definition TT : string := T +:+ T.

Definition sql_java_type_mapping : gmap string string :=
  list_to_map
    [ ("varchar", "String");
      ("datetime", "LocalDateTime");
      ("timestamp", "LocalDateTime");
      ("int", "Integer");
      ("smallint", "Integer");
      ("tinyint", "Integer");
      ("short", "Integer");
      ("bigint", "Long");
      ("decimal", "BigDecimal");
      ("char", "String");
      ("text", "String");
      ("json", "String") ].

(** ** Identifier helpers (lines 31-58) *)

Definition first_char_lower (s : string) : string :=
  Py.lower (Py.slice s 0 1) +:+ Py.drop 1 s.

Definition first_char_upper (s : string) : string :=
  Py.upper (Py.slice s 0 1) +:+ Py.drop 1 s.

(** One iteration of the loop of [to_camel_case] at index [i]; the loop
    state is [(is_prev_uc, ccs)].  The index ranges over [range(len(s))],
    so [s[i]] is always defined (see [camel_loop_chars]). *)
Definition to_camel_case_step (s : string) (st : bool * string) (i : nat)
  : bool * string :=
  let '(is_prev_uc, ccs) := st in
  match String.get i s with
  | None => st
  | Some ci =>
      if Ascii.eqb ci "_" then (true, ccs)
      else if is_prev_uc then (false, ccs +:+ Py.upper (String ci ""))
      else (is_prev_uc, ccs +:+ String ci "")
  end.

Definition to_camel_case (s : string) : string :=
  let is_prev_uc := false in
  let s := Py.lower s in
  let ccs := "" in
  snd (fold_left (to_camel_case_step s) (seq 0 (String.length s))
         (is_prev_uc, ccs)).

(** ** Type resolution (lines 79-82 and 227-233) *)

(** Longest prefix of [s] whose characters satisfy [p], and the rest. *)
Fixpoint span (p : ascii → bool) (s : string) : string * string :=
  match s with
  | EmptyString => (EmptyString, EmptyString)
  | String c r =>
      if p c then let '(a, b) := span p r in (String c a, b)
      else (EmptyString, s)
  end.

(** [re.match("^\s*(\w+)\(\d+\)\s*$", sql_type)]: the first group on a
    match, [None] otherwise.  Each repetition is followed by something its
    class excludes (a word character is no space, no word character is
    ['('], no digit is [')'], and after the last [\s*] the text ends), so
    the greedy scan below never has to backtrack;
    [match_sql_type_regex] relates it to the language of the pattern. *)
Definition match_sql_type (sql_type : string) : option string :=
  let '(_, r1) := span Py.is_space sql_type in
  let '(w, r2) := span Py.is_word r1 in
  match w, r2 with
  | String _ _, String "(" r3 =>
      let '(d, r4) := span Py.is_digit r3 in
      match d, r4 with
      | String _ _, String ")" r5 =>
          let '(_, r6) := span Py.is_space r5 in
          match r6 with
          | EmptyString => Some w
          | String _ _ => None
          end
      | _, _ => None
      end
  | _, _ => None
  end.

Definition extract_sql_type (sql_type : string) : string :=
  match match_sql_type sql_type with
  | None => sql_type
  | Some m1 => m1
  end.

Definition to_java_type (sql_type : string) : result string :=
  let sql_type := Py.lower sql_type in
  match sql_java_type_mapping !! sql_type with
  | None =>
      Raise (ValueError
               ("Unable to find corresponding java type for " +:+ sql_type))
  | Some java_type => Ok java_type
  end.

(** The resolution of a column type as [parseSqlTable] performs it:
    [extract_sql_type] on the raw type (line 97), then [to_java_type] in
    the constructor of [SQLField] (line 241). *)
Definition resolve_type (raw_type : string) : result string :=
  to_java_type (extract_sql_type raw_type).


(** ** Command-line options (lines 60-76) *)

Module Args.
(** The namespace returned by [parse_args]. *)
Record t : Type := mk {
  user : string;
  database : string;
  author : string;
  password : string;
  host : string;
  table : option string;
  excl : option string;
  output : option string;
  extends : option string;
  mybatis : bool;
  lambok : bool
}.

Definition set_excl (ap : t) (e : option string) : t :=
  mk (user ap) (database ap) (author ap) (password ap) (host ap)
     (table ap) e (output ap) (extends ap) (mybatis ap) (lambok ap).
End Args.

(** ** The data model (lines 236-278) *)

Record SQLField : Type := mkSQLField {
  sql_field_name : string;
  sql_type : string;
  comment : string;
  java_type : string;
  java_field_name : string
}.

(** [SQLField.__init__] *)
Definition SQLField_init (field_name sql_type comment : string)
  : result SQLField :=
  let sql_field_name := Py.remove_char "`" field_name in
  java_type ← to_java_type sql_type;
  mret (mkSQLField sql_field_name sql_type comment java_type
          (to_camel_case sql_field_name)).

(** [f.comment = c] *)
Definition set_comment (f : SQLField) (c : string) : SQLField :=
  mkSQLField (sql_field_name f) (sql_type f) c (java_type f)
    (java_field_name f).

Record SQLTable : Type := mkSQLTable {
  table_name : string;
  table_comment : string;
  fields : list SQLField;
  java_type_set : gset string
}.

(** [SQLTable.__init__] *)
Definition SQLTable_init (table_name : string) (table_comment : option string)
    (fields : list SQLField) : SQLTable :=
  let table_comment :=
    match table_comment with None => "" | Some c => c end in
  let java_type_set :=
    fold_left (λ set f, {[ java_type f ]} ∪ set) fields (∅ : gset string) in
  mkSQLTable table_name table_comment fields java_type_set.

Definition is_type_used (self : SQLTable) (java_type : string) : bool :=
  bool_decide (java_type ∈ java_type_set self).

Definition supply_java_class_name (self : SQLTable) : string :=
  first_char_upper (to_camel_case (table_name self)).

(** ** The schema reader (lines 85-122) *)

(** The database behind the cursor, one function per query the program
    issues, each from the table name to the rows [fetchall] returns:
    [DESC {table}] (only the columns [Field] and [Type] of each row are
    read), the [column_name, column_comment] query and the
    [table_comment] query of [information_schema]. *)
Record Cursor : Type := mkCursor {
  desc_rows : string → list (string * string);
  column_comment_rows : string → list (string * string);
  table_comment_rows : string → list (option string)
}.

(** [l[i]] on a list *)
Definition list_index {A : Type} (l : list A) (i : nat) : result A :=
  match l !! i with
  | Some a => Ok a
  | None => Raise (IndexError "list index out of range")
  end.

(** [m[k]] on a dict *)
Definition dict_index (m : gmap string string) (k : string) : result string :=
  match m !! k with
  | Some v => Ok v
  | None => Raise (KeyError k)
  end.

(** A [for] loop whose body may raise: the state is threaded through the
    iterations and the first exception leaves the loop. *)
Fixpoint for_each {A S : Type} (l : list A) (body : S → A → result S) (s : S)
  : result S :=
  match l with
  | [] => Ok s
  | a :: l' => s' ← body s a; for_each l' body s'
  end.

Definition fetch_table_comment (cursor : Cursor) (table : string)
  : result (option string) :=
  let r := table_comment_rows cursor table in
  list_index r 0.

Definition fetch_column_info (cursor : Cursor) (table : string)
  : gmap string string :=
  let r := column_comment_rows cursor table in
  let m := ∅ in
  fold_left (λ m row, <[ row.1 := row.2 ]> m) r m.

(** The second loop assigns [f.comment] on the objects of [fields] in
    place; the objects are reachable from that list only, so the loop is
    modelled by the list of the updated fields. *)
Definition parseSqlTable (cursor : Cursor) (table : string) (args : Args.t)
  : result SQLTable :=
  let table_name := table in
  let rl := desc_rows cursor table in
  fields ← for_each rl (λ fields r,
              f ← SQLField_init r.1 (extract_sql_type r.2) "";
              mret (fields ++ [f])) [];
  let ci := fetch_column_info cursor table in
  fields ← for_each fields (λ done f,
              c ← dict_index ci (sql_field_name f);
              mret (done ++ [set_comment f c])) [];
  table_comment ← fetch_table_comment cursor table;
  mret (SQLTable_init table_name table_comment fields).

(** ** The class renderer (lines 125-224) *)

Section Renderer.

(** [pystuff.str_matches], a helper of an external package: the renderer
    is parametric in it. *)
Variable str_matches : string → string → bool.

(** Body of the loop over the fields (lines 201-207). *)
Definition emit_field (mbp_ft : bool) (s : string) (f : SQLField) : string :=
  let s := s +:+ T +:+ "/** " +:+ comment f +:+ " */" +:+ Py.nl in
  let s :=
    if mbp_ft then
      if str_matches (sql_field_name f) "id" then
        s +:+ T +:+ "@TableId(type = IdType.AUTO)" +:+ Py.nl
      else
        s +:+ T +:+ "@TableField(" +:+ Py.dquote +:+ sql_field_name f
          +:+ Py.dquote +:+ ")" +:+ Py.nl
    else s in
  s +:+ T +:+ "private " +:+ java_type f +:+ " " +:+ java_field_name f
    +:+ ";" +:+ Py.nl +:+ Py.nl.

(** Body of the loop over the accessors (lines 214-221). *)
Definition emit_accessors (s : string) (f : SQLField) : string :=
  let us := first_char_upper (java_field_name f) in
  let s := s +:+ T +:+ "public " +:+ java_type f +:+ " get" +:+ us
             +:+ "() {" +:+ Py.nl in
  let s := s +:+ TT +:+ "return this." +:+ java_field_name f +:+ Py.nl in
  let s := s +:+ T +:+ "}" +:+ Py.nl +:+ Py.nl in
  let s := s +:+ T +:+ "public void set" +:+ us +:+ "(" +:+ java_type f
             +:+ " " +:+ java_field_name f +:+ ") {" +:+ Py.nl in
  let s := s +:+ TT +:+ "this." +:+ java_field_name f +:+ " = "
             +:+ java_field_name f +:+ ";" +:+ Py.nl in
  s +:+ T +:+ "}" +:+ Py.nl +:+ Py.nl.

Definition generate_java_class (table : SQLTable) (ap : Args.t)
    (spec_class_name : option string) (package : option string) : string :=
  let mbp_ft := Args.mybatis ap in
  let lambok_ft := Args.lambok ap in
  let class_name :=
    match spec_class_name with
    | Some n => n
    | None => supply_java_class_name table
    end in
  let s := "" in
  let s :=
    match package with
    | Some p => s +:+ "package " +:+ p +:+ ";" +:+ Py.nl
    | None => s
    end in
  let s := if is_type_used table "LocalDateTime"
           then s +:+ "import java.time.*;" +:+ Py.nl else s in
  let s := if is_type_used table "BigDecimal"
           then s +:+ "import java.math.*;" +:+ Py.nl else s in
  let s := s +:+ Py.nl in
  let s := if mbp_ft
           then s +:+ "import com.baomidou.mybatisplus.annotation.*;"
                  +:+ Py.nl
           else s in
  let s := s +:+ Py.nl in
  let s := if lambok_ft then s +:+ "import lombok.*;" +:+ Py.nl else s in
  let s :=
    match Args.extends ap with
    | Some e =>
        if Py.truthy e then s +:+ "import " +:+ Py.strip e +:+ ";" +:+ Py.nl
        else s
    | None => s
    end in
  let s := s +:+ Py.nl in
  let s := s +:+ "/**" +:+ Py.nl in
  let s := s +:+ " * " +:+ table_comment table +:+ Py.nl in
  let s :=
    if Py.truthy (Args.author ap) then
      let s := s +:+ " *" +:+ Py.nl in
      s +:+ " * @author " +:+ Args.author ap +:+ Py.nl
    else s in
  let s := s +:+ " */" +:+ Py.nl in
  let s := if lambok_ft then s +:+ "@Data" +:+ Py.nl else s in
  let s :=
    if mbp_ft then
      s +:+ "@TableName(value = " +:+ Py.dquote +:+ table_name table
        +:+ Py.dquote +:+ ", autoResultMap = true)" +:+ Py.nl
    else s in
  let s := s +:+ "public class " +:+ class_name in
  let s :=
    match Args.extends ap with
    | Some e =>
        if Py.truthy e then
          let canonical := e in
          let r := Py.rfind canonical "." in
          s +:+ " extends " +:+ Py.drop (Z.to_nat (r + 1)) canonical
        else s
    | None => s
    end in
  let s := s +:+ " {" +:+ Py.nl +:+ Py.nl in
  let s := fold_left (emit_field mbp_ft) (fields table) s in
  let s :=
    if negb lambok_ft then fold_left emit_accessors (fields table) s
    else s in
  let s := s +:+ "}" +:+ Py.nl in
  s.

End Renderer.

(** ** The driver (lines 281-349) *)

Definition guess_package (path : string) : option string :=
  let hi := Py.rfind path "/" in
  if hi =? -1 then None
  else
    let pat := "src/main/java" in
    let lo := Py.find path pat in
    if lo =? -1 then None
    else
      Some (Py.replace_char "/" "."
              (Py.slice path (Z.to_nat (lo + Z.of_nat (String.length pat) + 1))
                 (Z.to_nat hi))).

(** Lines 320-340 of the loop body: the class name and the file name for
    one table, from the [-output] option.  (The [print] of the file name
    on line 335 is not part of the result.) *)
Definition output_target (ap : Args.t) (table : SQLTable) : string * string :=
  let java_class_name : option string := None in
  let fn := "" in
  let '(java_class_name, fn) :=
    if Py.truthy_opt (Args.output ap) then
      let fn := default "" (Args.output ap) in
      let hi := Py.rfind fn ".java" in
      if -1 <? hi then
        let lo := Py.rfind fn "/" in
        let lo := if lo =? -1 then 0 else lo + 1 in
        (Some (Py.slice fn (Z.to_nat lo) (Z.to_nat hi)), fn)
      else
        (java_class_name, if Py.endswith fn "/" then fn else fn +:+ "/")
    else (java_class_name, fn) in
  match java_class_name with
  | None =>
      let java_class_name := supply_java_class_name table in
      (java_class_name, fn +:+ java_class_name +:+ ".java")
  | Some java_class_name => (java_class_name, fn)
  end.

(** Lines 315-343 for one table: the file name and the generated text. *)
Definition generate_for_table (str_matches : string → string → bool)
    (cursor : Cursor) (ap : Args.t) (table : string)
  : result (string * string) :=
  table ← parseSqlTable cursor table ap;
  let '(java_class_name, fn) := output_target ap table in
  let generated :=
    generate_java_class str_matches table ap (Some java_class_name)
      (guess_package fn) in
  mret (fn, generated).

(** ** The identifier normalizer as the specification words it *)

(** The scan of the specification: [capitalize_next] is the flag an
    underscore sets; an underscore is dropped, any other character is
    upper-cased when the flag is set, which clears it. *)
Fixpoint camel_scan (capitalize_next : bool) (s : string) : string :=
  match s with
  | EmptyString => EmptyString
  | String c r =>
      if Ascii.eqb c "_" then camel_scan true r
      else String (if capitalize_next then Py.upper_char c else c)
                  (camel_scan false r)
  end.

Definition toCamelCase (s : string) : string := camel_scan false (Py.lower s).

(** ** Definitions used by the statements *)

(** *** The loop of [to_camel_case], character by character *)

(** The loop body on a character. *)
Definition camel_char (st : bool * string) (ci : ascii) : bool * string :=
  if Ascii.eqb ci "_" then (true, st.2)
  else if st.1 then (false, st.2 +:+ String (Py.upper_char ci) "")
  else (false, st.2 +:+ String ci "").

Fixpoint camel_chars (s : string) (st : bool * string) : bool * string :=
  match s with
  | EmptyString => st
  | String c r => camel_chars r (camel_char st c)
  end.

(** *** The pattern of [extract_sql_type] *)

Fixpoint all_chars (p : ascii → bool) (s : string) : bool :=
  match s with
  | EmptyString => true
  | String c r => p c && all_chars p r
  end.

(** [s] is empty or starts with a character outside of [p]. *)
Definition stops (p : ascii → bool) (s : string) : bool :=
  match s with
  | EmptyString => true
  | String c _ => negb (p c)
  end.

(** The language of [^\s*(\w+)\(\d+\)\s*$] with its first group: the
    texts [ws w ( ds ) ts] with [ws], [ts] white space, [w] a non-empty
    word and [ds] a non-empty run of digits.  ([$] also matches before a
    final line feed, which [\s*] has consumed already.) *)
Inductive sql_type_pattern : string → string → Prop :=
  | sql_type_pattern_intro (ws w ds ts : string) :
      all_chars Py.is_space ws = true →
      w ≠ "" → all_chars Py.is_word w = true →
      ds ≠ "" → all_chars Py.is_digit ds = true →
      all_chars Py.is_space ts = true →
      sql_type_pattern (ws +:+ w +:+ "(" +:+ ds +:+ ")" +:+ ts) w.

(** *** The documented type mapping *)

(** The mapping the specification documents. *)
Definition documented_types : list (string * string) :=
  [ ("varchar", "String"); ("char", "String"); ("text", "String");
    ("json", "String");
    ("datetime", "LocalDateTime"); ("timestamp", "LocalDateTime");
    ("int", "Integer"); ("smallint", "Integer"); ("tinyint", "Integer");
    ("short", "Integer");
    ("bigint", "Long");
    ("decimal", "BigDecimal") ].

(** *** The sections of the rendered class

    The pieces of a class in the order the specification lists the
    rendering steps (package declaration, imports, doc comment, class
    annotations, class declaration, fields, accessors), each with the text
    the statements of [generate_java_class] give it. *)

(** A piece of text that is present under a condition. *)
Definition opt (b : bool) (text : string) : string := if b then text else "".

(** The texts of the elements of a list, one after the other. *)
Fixpoint join {A : Type} (g : A → string) (l : list A) : string :=
  match l with
  | [] => ""
  | a :: l' => g a +:+ join g l'
  end.

Definition package_decl (package : option string) : string :=
  match package with
  | Some p => "package " +:+ p +:+ ";" +:+ Py.nl
  | None => ""
  end.

Definition import_datetime : string := "import java.time.*;" +:+ Py.nl.
Definition import_decimal : string := "import java.math.*;" +:+ Py.nl.
Definition import_orm : string :=
  "import com.baomidou.mybatisplus.annotation.*;" +:+ Py.nl.
Definition import_lombok : string := "import lombok.*;" +:+ Py.nl.
Definition import_base (base : string) : string :=
  "import " +:+ Py.strip base +:+ ";" +:+ Py.nl.

(** Some column has the target type [jt]. *)
Definition uses_type (fields : list SQLField) (jt : string) : bool :=
  existsb (λ f, String.eqb (java_type f) jt) fields.

Definition doc_comment (table_comment author : string) : string :=
  "/**" +:+ Py.nl +:+ " * " +:+ table_comment +:+ Py.nl
  +:+ opt (Py.truthy author)
        (" *" +:+ Py.nl +:+ " * @author " +:+ author +:+ Py.nl)
  +:+ " */" +:+ Py.nl.

Definition data_annotation : string := "@Data" +:+ Py.nl.

Definition table_name_annotation (table_name : string) : string :=
  "@TableName(value = " +:+ Py.dquote +:+ table_name +:+ Py.dquote
  +:+ ", autoResultMap = true)" +:+ Py.nl.

(** The last segment of a dotted name. *)
Definition simple_name (canonical : string) : string :=
  Py.drop (Z.to_nat (Py.rfind canonical "." + 1)) canonical.

Definition class_decl (class_name : string) (base : option string) : string :=
  "public class " +:+ class_name
  +:+ opt (Py.truthy_opt base) (" extends " +:+ simple_name (default "" base))
  +:+ " {" +:+ Py.nl +:+ Py.nl.

Definition field_doc (f : SQLField) : string :=
  T +:+ "/** " +:+ comment f +:+ " */" +:+ Py.nl.

Definition table_id_annotation : string :=
  T +:+ "@TableId(type = IdType.AUTO)" +:+ Py.nl.

Definition table_field_annotation (column : string) : string :=
  T +:+ "@TableField(" +:+ Py.dquote +:+ column +:+ Py.dquote +:+ ")"
  +:+ Py.nl.

Definition field_decl (f : SQLField) : string :=
  T +:+ "private " +:+ java_type f +:+ " " +:+ java_field_name f +:+ ";"
  +:+ Py.nl +:+ Py.nl.

Definition getter (f : SQLField) : string :=
  T +:+ "public " +:+ java_type f +:+ " get"
  +:+ first_char_upper (java_field_name f) +:+ "() {" +:+ Py.nl
  +:+ TT +:+ "return this." +:+ java_field_name f +:+ Py.nl
  +:+ T +:+ "}" +:+ Py.nl +:+ Py.nl.

Definition setter (f : SQLField) : string :=
  T +:+ "public void set" +:+ first_char_upper (java_field_name f) +:+ "("
  +:+ java_type f +:+ " " +:+ java_field_name f +:+ ") {" +:+ Py.nl
  +:+ TT +:+ "this." +:+ java_field_name f +:+ " = " +:+ java_field_name f
  +:+ ";" +:+ Py.nl
  +:+ T +:+ "}" +:+ Py.nl +:+ Py.nl.

Section Sections.

Variable str_matches : string → string → bool.

(** The annotation of a field: the identifier annotation when the column
    name matches [id], the binding to the column otherwise. *)
Definition field_annotation (f : SQLField) : string :=
  if str_matches (sql_field_name f) "id" then table_id_annotation
  else table_field_annotation (sql_field_name f).

(** A field: doc comment, annotation under [orm], declaration. *)
Definition field_block (orm : bool) (f : SQLField) : string :=
  field_doc f +:+ opt orm (field_annotation f) +:+ field_decl f.

Definition accessor_pair (f : SQLField) : string := getter f +:+ setter f.

(** The class from its doc comment on. *)
Definition class_text (table : SQLTable) (ap : Args.t) (class_name : string)
  : string :=
  doc_comment (table_comment table) (Args.author ap)
  +:+ opt (Args.lambok ap) data_annotation
  +:+ opt (Args.mybatis ap) (table_name_annotation (table_name table))
  +:+ class_decl class_name (Args.extends ap)
  +:+ join (field_block (Args.mybatis ap)) (fields table)
  +:+ opt (negb (Args.lambok ap)) (join accessor_pair (fields table))
  +:+ "}" +:+ Py.nl.

(** Package declaration and imports. *)
Definition preamble (table : SQLTable) (ap : Args.t)
    (package : option string) : string :=
  package_decl package
  +:+ opt (is_type_used table "LocalDateTime") import_datetime
  +:+ opt (is_type_used table "BigDecimal") import_decimal
  +:+ Py.nl
  +:+ opt (Args.mybatis ap) import_orm
  +:+ Py.nl
  +:+ opt (Args.lambok ap) import_lombok
  +:+ opt (Py.truthy_opt (Args.extends ap))
        (import_base (default "" (Args.extends ap)))
  +:+ Py.nl.

End Sections.

(** *** The schema reader *)

(** The results of [f] on the elements of [l], up to the first exception. *)
Fixpoint map_result {A B : Type} (f : A → result B) (l : list A)
  : result (list B) :=
  match l with
  | [] => Ok []
  | a :: l' => b ← f a; bs ← map_result f l'; mret (b :: bs)
  end.


(** The error the specification asks for when a table is missing: an
    exception of a class of its own, [TableNotFoundError], or at least one
    whose message names the table. *)
Definition is_table_not_found (table : string) (e : exn) : Prop :=
  exn_class e = "TableNotFoundError" ∨ 0 ≤ Py.find (exn_message e) table.

(** *** The table of the examples of the specification *)

(** A database with the table [t_order (id int, order_no varchar(64),
    created_at datetime)], no comments. *)
Definition example_cursor : Cursor :=
  mkCursor
    (λ t, if String.eqb t "t_order"
          then [("id", "int"); ("order_no", "varchar(64)");
                ("created_at", "datetime")]
          else [])
    (λ t, if String.eqb t "t_order"
          then [("id", ""); ("order_no", ""); ("created_at", "")]
          else [])
    (λ t, if String.eqb t "t_order" then [Some ""] else []).

Definition example_table : SQLTable :=
  SQLTable_init "t_order" (Some "")
    [ mkSQLField "id" "int" "" "Integer" "id";
      mkSQLField "order_no" "varchar" "" "String" "orderNo";
      mkSQLField "created_at" "datetime" "" "LocalDateTime" "createdAt" ].

(** No ORM annotations, accessors generated, no output path. *)
Definition example_args : Args.t :=
  Args.mk "root" "shop" "" "" "localhost" (Some "t_order") None None None
    false false.

(** The same with the ORM annotations. *)
Definition example_args_orm : Args.t :=
  Args.mk "root" "shop" "" "" "localhost" (Some "t_order") None None None
    true false.

(** The same with excluded fields. *)
Definition example_args_excl : Args.t :=
  Args.mk "root" "shop" "" "" "localhost" (Some "t_order")
    (Some "created_at") None None false false.

(** The same with an output file. *)
Definition example_args_output : Args.t :=
  Args.mk "root" "shop" "" "" "localhost" (Some "t_order") None
    (Some "/work/src/main/java/com/shop/Order.java") None false false.

(** A database in which every query returns no rows. *)
Definition empty_cursor : Cursor := mkCursor (λ _, []) (λ _, []) (λ _, []).

(** The text made of the given lines. *)
Definition text_of_lines (lines : list string) : string :=
  join (λ l, l +:+ Py.nl) lines.

(** ** The rest of the program *)

(** *** More string primitives *)

(** [c in s] for a one-character [c] *)
Fixpoint char_in (c : ascii) (s : string) : bool :=
  match s with
  | EmptyString => false
  | String d r => Ascii.eqb d c || char_in c r
  end.

(** [s.count(c)] for a one-character [c] *)
Fixpoint count_char (c : ascii) (s : string) : nat :=
  match s with
  | EmptyString => 0%nat
  | String d r => ((if Ascii.eqb d c then 1 else 0) + count_char c r)%nat
  end.

(** [s.isascii()] *)
Definition is_ascii (s : string) : bool :=
  all_chars (λ c, (nat_of_ascii c <? 128)%nat) s.

(** [s.split(c)] for a one-character [c]: the pieces between the
    occurrences of [c], at least one piece. *)
Fixpoint split_char (c : ascii) (s : string) : list string :=
  match s with
  | EmptyString => [EmptyString]
  | String d r =>
      if Ascii.eqb d c then EmptyString :: split_char c r
      else match split_char c r with
           | [] => [String d EmptyString]
           | piece :: pieces => String d piece :: pieces
           end
  end.

(** [sep.join(pieces)] for a one-character [sep] *)
Fixpoint join_char (sep : ascii) (pieces : list string) : string :=
  match pieces with
  | [] => EmptyString
  | [piece] => piece
  | piece :: rest => piece +:+ String sep (join_char sep rest)
  end.

(** [p] occurs in [s]. *)
Definition occurs (p s : string) : Prop := ∃ a b, s = a +:+ p +:+ b.

(** The target types of the mapping. *)
Definition java_types : list string :=
  ["String"; "LocalDateTime"; "Integer"; "Long"; "BigDecimal"].

(** *** The field of a row *)

(** The field the reader builds from a row of [DESC] when the type of the
    row resolves and the column has a comment in [ci]. *)
Definition row_field (ci : gmap string string) (r : string * string)
  : SQLField :=
  let name := Py.remove_char "`" r.1 in
  mkSQLField name (extract_sql_type r.2) (default "" (ci !! name))
    (match resolve_type r.2 with Ok t => t | Raise _ => "" end)
    (to_camel_case name).

(** *** The string forms of a field and of a table (lines 244-246 and
    258-264) *)

(** [SQLField.__str__] *)
Definition SQLField_str (self : SQLField) : string :=
  "Field: " +:+ sql_field_name self +:+ " (" +:+ java_field_name self
  +:+ "), type: " +:+ sql_type self +:+ " (" +:+ java_type self +:+ "), "
  +:+ "comment: '" +:+ comment self +:+ "' ".

(** [SQLTable.__str__] *)
Definition SQLTable_str (self : SQLTable) : string :=
  let s := "" in
  let s := s +:+ "Table: " +:+ table_name self +:+ Py.nl in
  let s := s +:+ "Comment: " +:+ table_comment self +:+ Py.nl in
  let s := fold_left (λ s f, s +:+ " - " +:+ SQLField_str f +:+ Py.nl)
             (fields self) s in
  s.

(** *** The loop of the driver (lines 300 and 313-349)

    The driver acts on the world outside the program: the lines printed
    and the files.  Whether a file can be opened and written is for the
    operating system to say: a [write_answer] is what it answers to lines
    346-348 for a path and a text, given the files there are.  An
    exception leaves the loop with the world as it is at that point.
    (The connection to the database is the given cursor, and the standard
    output takes every line.) *)

(** The exceptions that leave the driver: those of the schema reader, the
    one of line 300 and those of [open], [write] and [close], with the
    name of their class. *)
Inductive driver_exn : Type :=
  | FromReader (e : exn)
  | AttributeError (msg : string)
  | FileError (cls msg : string).

Inductive driver_result (A : Type) : Type :=
  | Done (a : A)
  | Failed (e : driver_exn).

Arguments Done {A} a.
Arguments Failed {A} e.

Record World : Type := mkWorld {
  w_stdout : list string;
  w_files : gmap string string
}.

(** The answer to lines 346-348: the text is written; or [open] raises
    and no file changes; or [open] has emptied or created the file and
    [write] or [close] raises, the file being left with [held]. *)
Inductive write_answer : Type :=
  | Written
  | OpenFails (cls msg : string)
  | WriteFails (cls msg : string) (held : string).

(** [print(line)] *)
Definition print (line : string) (w : World) : World :=
  mkWorld (w_stdout w ++ [line]) (w_files w).

Section Driver.

Variable str_matches : string → string → bool.

(** The operating system: from the files, a path and a text to the answer
    to writing the text at the path. *)
Variable os : gmap string string → string → string → write_answer.

(** [with open(fn, "w") as f: f.write(text); f.close()] *)
Definition write_file (fn text : string) (w : World)
  : driver_result unit * World :=
  match os (w_files w) fn text with
  | Written => (Done tt, mkWorld (w_stdout w) (<[ fn := text ]> (w_files w)))
  | OpenFails cls msg => (Failed (FileError cls msg), w)
  | WriteFails cls msg held =>
      (Failed (FileError cls msg),
       mkWorld (w_stdout w) (<[ fn := held ]> (w_files w)))
  end.

(** Lines 316-349, from the parsed table on. *)
Definition main_body (ap : Args.t) (table : SQLTable) (w : World)
  : driver_result unit * World :=
  let w := print "" w in
  let w := print (SQLTable_str table) w in
  let java_class_name : option string := None in
  let fn := "" in
  let '(java_class_name, fn, w) :=
    if Py.truthy_opt (Args.output ap) then
      let fn := default "" (Args.output ap) in
      let hi := Py.rfind fn ".java" in
      if -1 <? hi then
        let lo := Py.rfind fn "/" in
        let lo := if lo =? -1 then 0 else lo + 1 in
        (Some (Py.slice fn (Z.to_nat lo) (Z.to_nat hi)), fn, w)
      else
        let w := print ("fn: " +:+ fn) w in
        (java_class_name, if Py.endswith fn "/" then fn else fn +:+ "/", w)
    else (java_class_name, fn, w) in
  let '(java_class_name, fn) :=
    match java_class_name with
    | None =>
        let java_class_name := supply_java_class_name table in
        (java_class_name, fn +:+ java_class_name +:+ ".java")
    | Some java_class_name => (java_class_name, fn)
    end in
  let generated :=
    generate_java_class str_matches table ap (Some java_class_name)
      (guess_package fn) in
  match write_file fn generated w with
  | (Done _, w) =>
      (Done tt,
       print ("Java class generated and written to '" +:+ fn +:+ "'") w)
  | (Failed e, w) => (Failed e, w)
  end.

(** One iteration (lines 315-349): read the table, then [main_body]. *)
Definition main_iteration (cursor : Cursor) (ap : Args.t) (name : string)
    (w : World) : driver_result unit * World :=
  match parseSqlTable cursor name ap with
  | Raise e => (Failed (FromReader e), w)
  | Ok table => main_body ap table w
  end.

(** The loop over [tables] (line 313). *)
Fixpoint main_loop (cursor : Cursor) (ap : Args.t) (tables : list string)
    (w : World) : driver_result unit * World :=
  match tables with
  | [] => (Done tt, w)
  | name :: rest =>
      match main_iteration cursor ap name w with
      | (Done _, w') => main_loop cursor ap rest w'
      | (Failed e, w') => (Failed e, w')
      end
  end.

(** Lines 300 and 313: the table names of the option, then the loop.
    Without the option [ap.table] is [None], which has no [split]. *)
Definition main_tables (cursor : Cursor) (ap : Args.t) (w : World)
  : driver_result unit * World :=
  match Args.table ap with
  | None =>
      (Failed (AttributeError "'NoneType' object has no attribute 'split'"),
       w)
  | Some table =>
      let tables := split_char "," table in
      main_loop cursor ap tables w
  end.

End Driver.

(** *** What one iteration of the driver prints *)

(** The line of line 335, printed when the output option is set and names
    no [.java] file. *)
Definition fn_line (ap : Args.t) : list string :=
  if Py.truthy_opt (Args.output ap)
     && negb (-1 <? Py.rfind (default "" (Args.output ap)) ".java")
  then ["fn: " +:+ default "" (Args.output ap)]
  else [].

(** The lines of one iteration before the file is written: the empty
    line, the table, the line of the file name if any. *)
Definition iteration_lines (ap : Args.t) (table : SQLTable) : list string :=
  [""; SQLTable_str table] ++ fn_line ap.

(** The line after the file is written. *)
Definition report_line (fn : string) : string :=
  "Java class generated and written to '" +:+ fn +:+ "'".

(** The text the driver renders for a table (line 343). *)
Definition rendered (str_matches : string → string → bool) (ap : Args.t)
    (table : SQLTable) : string :=
  generate_java_class str_matches table ap (Some (output_target ap table).1)
    (guess_package (output_target ap table).2).

(** The outcome of an iteration for a table the reader has returned, from
    the answer of the operating system for the file [fn] and the text
    [text]. *)
Definition iteration_outcome (answer : write_answer) (ap : Args.t)
    (table : SQLTable) (fn text : string) (w : World)
  : driver_result unit * World :=
  match answer with
  | Written =>
      (Done tt,
       mkWorld (w_stdout w ++ iteration_lines ap table ++ [report_line fn])
         (<[ fn := text ]> (w_files w)))
  | OpenFails cls msg =>
      (Failed (FileError cls msg),
       mkWorld (w_stdout w ++ iteration_lines ap table) (w_files w))
  | WriteFails cls msg held =>
      (Failed (FileError cls msg),
       mkWorld (w_stdout w ++ iteration_lines ap table)
         (<[ fn := held ]> (w_files w)))
  end.

(** *** More examples *)

(** The table [t_price], whose second column has a type with two numbers. *)
Definition cursor_decimal : Cursor :=
  mkCursor
    (λ _, [("id", "int"); ("amount", "decimal(10,2)"); ("note", "blob")])
    (λ _, [("id", ""); ("amount", ""); ("note", "")])
    (λ _, [Some ""]).

(** The table [t_user], whose second column has no comment row. *)
Definition cursor_no_comment : Cursor :=
  mkCursor
    (λ _, [("id", "int"); ("`name`", "varchar(32)")])
    (λ _, [("id", "key")])
    (λ _, [Some "users"]).

(** A database with the table [t_order] of the examples and the table
    [t_price], whose second column has a type with two numbers. *)
Definition cursor_shop : Cursor :=
  mkCursor
    (λ t, if String.eqb t "t_price"
          then [("id", "int"); ("amount", "decimal(10,2)")]
          else desc_rows example_cursor t)
    (λ t, if String.eqb t "t_price"
          then [("id", ""); ("amount", "")]
          else column_comment_rows example_cursor t)
    (λ t, if String.eqb t "t_price" then [Some ""]
          else table_comment_rows example_cursor t).

(** A world before the first table: nothing printed, no file. *)
Definition example_world : World := mkWorld [] ∅.

(** An operating system on which every file can be written. *)
Definition os_writable : gmap string string → string → string → write_answer :=
  λ _ _ _, Written.

(** An operating system without the directory [missing_dir]. *)
Definition os_missing_dir
  : gmap string string → string → string → write_answer :=
  λ _ fn _,
    if Py.startswith fn "missing_dir/"
    then OpenFails "FileNotFoundError"
           ("[Errno 2] No such file or directory: '" +:+ fn +:+ "'")
    else Written.

(** The options of the example with the output directory [missing_dir]. *)
Definition example_args_missing_dir : Args.t :=
  Args.mk "root" "shop" "" "" "localhost" (Some "t_order,t_price") None
    (Some "missing_dir") None false false.

(** * Properties *)

(** ** Strings *)

Lemma sapp_cons (a : ascii) (s t : string) :
  String a s +:+ t = String a (s +:+ t).
Proof. reflexivity. Qed.

Lemma sapp_nil_l (s : string) : "" +:+ s = s.
Proof. reflexivity. Qed.

Lemma sapp_nil_r (s : string) : s +:+ "" = s.
Proof. induction s as [|a s IH]; [reflexivity|]. by rewrite sapp_cons, IH. Qed.

Lemma sapp_assoc (a b c : string) : (a +:+ b) +:+ c = a +:+ (b +:+ c).
Proof.
  induction a as [|x a IH]; [reflexivity|]. by rewrite !sapp_cons, IH.
Qed.

Lemma sapp_length (a b : string) :
  String.length (a +:+ b) = (String.length a + String.length b)%nat.
Proof.
  induction a as [|x a IH]; [reflexivity|]. rewrite sapp_cons. simpl. by rewrite IH.
Qed.

Lemma get_sapp_length (pre : string) (c : ascii) (r : string) :
  String.get (String.length pre) (pre +:+ String c r) = Some c.
Proof. induction pre as [|x pre IH]; [reflexivity|]. rewrite sapp_cons. exact IH. Qed.

(** ** The loop of [to_camel_case] *)

(** Iterating over [range(len(s))] and reading [s[i]] visits the characters
    of [s] in order: the index is always in range. *)
Lemma camel_loop_chars (rest pre : string) (st : bool * string) :
  fold_left (to_camel_case_step (pre +:+ rest))
    (seq (String.length pre) (String.length rest)) st
  = camel_chars rest st.
Proof.
  revert pre st. induction rest as [|c r IH]; intros pre st; [reflexivity|].
  cbn [String.length seq fold_left camel_chars].
  replace (to_camel_case_step (pre +:+ String c r) st (String.length pre))
    with (camel_char st c).
  - specialize (IH (pre +:+ String c "") (camel_char st c)).
    rewrite sapp_assoc, sapp_cons, sapp_nil_l, sapp_length in IH.
    simpl in IH. rewrite Nat.add_1_r in IH. exact IH.
  - unfold to_camel_case_step, camel_char. destruct st as [flag ccs].
    rewrite get_sapp_length. simpl.
    destruct (Ascii.eqb c "_"); [reflexivity|]. by destruct flag.
Qed.

Lemma camel_chars_scan (s : string) (flag : bool) (ccs : string) :
  (camel_chars s (flag, ccs)).2 = ccs +:+ camel_scan flag s.
Proof.
  revert flag ccs. induction s as [|c r IH]; intros flag ccs; simpl.
  - by rewrite sapp_nil_r.
  - unfold camel_char. simpl. destruct (Ascii.eqb c "_"); [apply IH|].
    destruct flag; rewrite IH, sapp_assoc; reflexivity.
Qed.

Lemma to_camel_case_scan (s : string) : to_camel_case s = toCamelCase s.
Proof.
  unfold to_camel_case, toCamelCase.
  pose proof (camel_loop_chars (Py.lower s) "" (false, "")) as H.
  rewrite sapp_nil_l in H. simpl String.length in H.
  change (snd ?x) with (x.2). rewrite H, camel_chars_scan. reflexivity.
Qed.

(** C2: [to_camel_case] computes the scan of the specification on the
    lowercased input, for every input string: an underscore is dropped and
    sets the capitalize-next flag, the next other character is upper-cased
    when the flag is set; and it maps [user_id] to [userId], [id] to [id]
    and [ORDER_NUM] to [orderNum]. *)
Theorem to_camel_case_spec :
  (∀ s : string, to_camel_case s = camel_scan false (Py.lower s))
  ∧ to_camel_case "user_id" = "userId"
  ∧ to_camel_case "id" = "id"
  ∧ to_camel_case "ORDER_NUM" = "orderNum".
Proof.
  split; [exact to_camel_case_scan|]. repeat split; vm_compute; reflexivity.
Qed.

(** ** The first-character helpers *)

Lemma first_char_upper_cons (c : ascii) (r : string) :
  first_char_upper (String c r) = String (Py.upper_char c) r.
Proof. reflexivity. Qed.

Lemma first_char_lower_cons (c : ascii) (r : string) :
  first_char_lower (String c r) = String (Py.lower_char c) r.
Proof. reflexivity. Qed.

(** C10: the identifier helpers return the empty string on the empty
    string: the first character is the slice [s[0:1]], which is empty on
    the empty string where the index [s[0]] would raise. *)
Theorem identifier_helpers_empty :
  first_char_upper "" = ""
  ∧ first_char_lower "" = ""
  ∧ to_camel_case "" = ""
  ∧ Py.slice "" 0 1 = ""
  ∧ Py.index "" 0 = Raise (IndexError "string index out of range").
Proof. repeat split; reflexivity. Qed.

(** ** The pattern of [extract_sql_type] *)

Lemma span_spec (p : ascii → bool) (s : string) :
  s = (span p s).1 +:+ (span p s).2
  ∧ all_chars p (span p s).1 = true
  ∧ stops p (span p s).2 = true.
Proof.
  induction s as [|c r IH]; [by repeat split|].
  simpl. destruct (p c) eqn:Hc.
  - destruct (span p r) as [a b]. simpl in *. destruct IH as (-> & Ha & Hb).
    rewrite Hc. by repeat split.
  - simpl. rewrite Hc. by repeat split.
Qed.

Lemma span_app (p : ascii → bool) (a b : string) :
  all_chars p a = true → stops p b = true → span p (a +:+ b) = (a, b).
Proof.
  induction a as [|c a IH]; intros Ha Hb.
  - rewrite sapp_nil_l. destruct b as [|c b]; [reflexivity|].
    simpl in *. by destruct (p c).
  - simpl in Ha. apply andb_prop in Ha as [Hc Ha].
    rewrite sapp_cons. simpl. by rewrite Hc, (IH Ha Hb).
Qed.

Lemma is_word_not_space (c : ascii) :
  Py.is_word c = true → Py.is_space c = false.
Proof.
  destruct c as [[] [] [] [] [] [] [] []]; vm_compute; congruence.
Qed.

(** The scan of [match_sql_type] accepts exactly the language of the
    pattern and returns its first group. *)
Lemma match_sql_type_regex (s w : string) :
  match_sql_type s = Some w ↔ sql_type_pattern s w.
Proof.
  split.
  - unfold match_sql_type. intros H.
    destruct (span_spec Py.is_space s) as (Hs & Hws & _).
    destruct (span Py.is_space s) as [ws r1]. simpl in *.
    destruct (span_spec Py.is_word r1) as (Hr1 & Hw & _).
    destruct (span Py.is_word r1) as [w' r2]. simpl in *.
    destruct w' as [|c0 w']; [done|].
    destruct r2 as [|c1 r3]; [done|].
    destruct (Ascii.eqb_spec c1 "("); [subst c1|]; cycle 1.
    { destruct c1 as [[] [] [] [] [] [] [] []]; done. }
    destruct (span_spec Py.is_digit r3) as (Hr3 & Hd & _).
    destruct (span Py.is_digit r3) as [ds r4]. simpl in *.
    destruct ds as [|d0 ds]; [done|].
    destruct r4 as [|c2 r5]; [done|].
    destruct (Ascii.eqb_spec c2 ")"); [subst c2|]; cycle 1.
    { destruct c2 as [[] [] [] [] [] [] [] []]; done. }
    destruct (span_spec Py.is_space r5) as (Hr5 & Hts & _).
    destruct (span Py.is_space r5) as [ts r6]. simpl in *.
    destruct r6 as [|? ?]; [|done].
    injection H as <-. rewrite sapp_nil_r in Hr5.
    subst s r1 r3 r5. by constructor.
  - intros [ws w' ds ts Hws Hne Hw Hdne Hd Hts].
    unfold match_sql_type.
    destruct w' as [|c0 w']; [done|]. destruct ds as [|d0 ds]; [done|].
    rewrite (span_app Py.is_space ws _ Hws); cycle 1.
    { simpl in *. apply andb_prop in Hw as [Hc _].
      by rewrite (is_word_not_space _ Hc). }
    rewrite (span_app Py.is_word (String c0 w') _ Hw); [|reflexivity].
    change ("(" +:+ String d0 ds +:+ ")" +:+ ts)
      with (String "(" (String d0 ds +:+ ")" +:+ ts)).
    cbv iota beta.
    rewrite (span_app Py.is_digit (String d0 ds) _ Hd); [|reflexivity].
    change (")" +:+ ts) with (String ")" ts). cbv iota beta.
    rewrite <- (sapp_nil_r ts) at 1.
    by rewrite (span_app Py.is_space ts "" Hts).
Qed.

(** ** The type mapper *)

Lemma documented_types_mapping (k v : string) :
  (k, v) ∈ documented_types ↔ sql_java_type_mapping !! k = Some v.
Proof.
  split.
  - intros H. unfold documented_types in H.
    repeat (apply elem_of_cons in H as [[= -> ->]|H]; [by vm_compute|]).
    by apply elem_of_nil in H.
  - intros H. apply elem_of_list_to_map_2 in H.
    repeat (apply elem_of_cons in H as [[= -> ->]|H];
            [unfold documented_types; set_solver|]).
    by apply elem_of_nil in H.
Qed.

Lemma documented_keyword_plain (k v : string) :
  (k, v) ∈ documented_types →
  Py.lower k = k ∧ all_chars Py.is_word k = true ∧ k ≠ ""
  ∧ match_sql_type k = None.
Proof.
  intros H. unfold documented_types in H.
  repeat (apply elem_of_cons in H as [[= -> ->]|H]; [by vm_compute|]).
  by apply elem_of_nil in H.
Qed.

(** A supported keyword resolves to its documented type, bare or followed
    by a parenthesized run of digits. *)
Lemma resolve_type_keyword (k v : string) :
  (k, v) ∈ documented_types → resolve_type k = Ok v.
Proof.
  intros H. destruct (documented_keyword_plain k v H) as (Hl & _ & _ & Hm).
  apply documented_types_mapping in H.
  unfold resolve_type, extract_sql_type, to_java_type.
  by rewrite Hm, Hl, H.
Qed.

Lemma resolve_type_keyword_length (k v ds : string) :
  (k, v) ∈ documented_types →
  ds ≠ "" → all_chars Py.is_digit ds = true →
  resolve_type (k +:+ "(" +:+ ds +:+ ")") = Ok v.
Proof.
  intros H Hne Hd.
  destruct (documented_keyword_plain k v H) as (Hl & Hw & Hk & _).
  apply documented_types_mapping in H.
  assert (match_sql_type (k +:+ "(" +:+ ds +:+ ")") = Some k) as Hm.
  { apply match_sql_type_regex.
    pose proof (sql_type_pattern_intro "" k ds "") as P.
    rewrite sapp_nil_l in P. apply P; done. }
  unfold resolve_type, extract_sql_type, to_java_type.
  by rewrite Hm, Hl, H.
Qed.

(** A text whose keyword is not a key of the mapping raises, whatever it
    is: there is no default type. *)
Lemma resolve_type_unknown (s : string) :
  sql_java_type_mapping !! Py.lower (extract_sql_type s) = None →
  resolve_type s
  = Raise (ValueError ("Unable to find corresponding java type for "
                       +:+ Py.lower (extract_sql_type s))).
Proof. intros H. unfold resolve_type, to_java_type. by rewrite H. Qed.

(** C1: the type [decimal(10,2)], a supported keyword with a precision
    suffix, does not resolve to [BigDecimal]: the pattern of
    [extract_sql_type] has no comma, the text is looked up whole and
    [to_java_type] raises. *)
Theorem resolve_type_decimal_precision :
  extract_sql_type "decimal(10,2)" = "decimal(10,2)"
  ∧ resolve_type "decimal(10,2)"
    = Raise (ValueError
               "Unable to find corresponding java type for decimal(10,2)")
  ∧ resolve_type "decimal(10)" = Ok "BigDecimal"
  ∧ resolve_type "decimal" = Ok "BigDecimal".
Proof. repeat split; vm_compute; reflexivity. Qed.

(** ** Loops that append *)

Lemma fold_left_append {A : Type} (step : string → A → string)
    (g : A → string) :
  (∀ s a, step s a = s +:+ g a) →
  ∀ (l : list A) (s : string), fold_left step l s = s +:+ join g l.
Proof.
  intros Hstep l. induction l as [|a l IH]; intros s; simpl.
  - by rewrite sapp_nil_r.
  - by rewrite IH, Hstep, sapp_assoc.
Qed.

Lemma join_ext {A : Type} (g h : A → string) (l : list A) :
  (∀ a, g a = h a) → join g l = join h l.
Proof.
  intros Hext. induction l as [|a l IH]; simpl; [reflexivity|].
  by rewrite Hext, IH.
Qed.

Ltac sapp_norm := rewrite ?sapp_assoc, ?sapp_nil_l, ?sapp_nil_r.

Lemma emit_field_block (sm : string → string → bool) (orm : bool)
    (s : string) (f : SQLField) :
  emit_field sm orm s f = s +:+ field_block sm orm f.
Proof.
  unfold emit_field, field_block, field_annotation, field_doc, field_decl,
    table_id_annotation, table_field_annotation, opt.
  destruct orm; [destruct (sm (sql_field_name f) "id")|];
    cbv zeta; sapp_norm; reflexivity.
Qed.

Lemma emit_accessors_pair (s : string) (f : SQLField) :
  emit_accessors s f = s +:+ accessor_pair f.
Proof.
  unfold emit_accessors, accessor_pair, getter, setter.
  cbv zeta. sapp_norm. reflexivity.
Qed.

Lemma if_append (b : bool) (s x : string) :
  (if b then s +:+ x else s) = s +:+ opt b x.
Proof. destruct b; simpl; by rewrite ?sapp_nil_r. Qed.

Lemma if_append2 (b : bool) (s x y : string) :
  (if b then (s +:+ x) +:+ y else s) = s +:+ opt b (x +:+ y).
Proof. destruct b; simpl; by rewrite ?sapp_nil_r, ?sapp_assoc. Qed.

Lemma package_append (package : option string) (s : string) :
  match package with
  | Some p => s +:+ "package " +:+ p +:+ ";" +:+ Py.nl
  | None => s
  end = s +:+ package_decl package.
Proof. destruct package; simpl; by rewrite ?sapp_nil_r. Qed.

Lemma base_append (base : option string) (g : string → string) (s : string) :
  match base with
  | Some e => if Py.truthy e then s +:+ g e else s
  | None => s
  end = s +:+ opt (Py.truthy_opt base) (g (default "" base)).
Proof.
  destruct base as [e|]; simpl; [|by rewrite sapp_nil_r]. apply if_append.
Qed.

(** One statement of a chain of [let]s: name its value, bring it to the
    form [s +:+ piece], and go on with the rest of the chain. *)
Ltac let_step :=
  lazymatch goal with
  | |- (let x := ?e in @?body x) = ?R =>
      let v := fresh "s" in
      let Hv := fresh "Hs" in
      pose (v := e); change (body v = R); cbv beta;
      assert (Hv : v = e) by reflexivity; clearbody v;
      cbv zeta in Hv;
      rewrite ?(fold_left_append _ _ emit_accessors_pair),
        ?(fold_left_append _ _ (emit_field_block _ _)),
        ?package_append, ?base_append, ?if_append2, ?if_append in Hv;
      subst v
  end.

(** The statements of [generate_java_class] append, in this order, the
    sections of the class. *)
Lemma generate_java_class_sections (sm : string → string → bool)
    (table : SQLTable) (ap : Args.t) (spec_class_name package : option string) :
  generate_java_class sm table ap spec_class_name package
  = preamble table ap package
    +:+ class_text sm table ap
          (default (supply_java_class_name table) spec_class_name).
Proof.
  cbv beta delta [generate_java_class].
  repeat let_step.
  unfold preamble, class_text, doc_comment, class_decl, import_base,
    simple_name, import_datetime, import_decimal, import_orm, import_lombok,
    data_annotation, table_name_annotation.
  destruct spec_class_name; simpl default; sapp_norm; reflexivity.
Qed.

(** ** The set of the target types of a table *)

Lemma java_type_set_fold (l : list SQLField) (acc : gset string) (jt : string) :
  jt ∈ fold_left (λ set f, {[ java_type f ]} ∪ set) l acc
  ↔ jt ∈ acc ∨ ∃ f, f ∈ l ∧ java_type f = jt.
Proof.
  revert acc. induction l as [|f l IH]; intros acc; simpl.
  - split; [by left|]. intros [H|(f & Hf & _)]; [done|]. by apply elem_of_nil in Hf.
  - rewrite IH. split.
    + intros [H|(g & Hg & Hjt)].
      * apply elem_of_union in H as [H|H]; [|by left].
        apply elem_of_singleton in H. right. exists f. split; [left|done].
      * right. exists g. split; [by right|done].
    + intros [H|(g & Hg & Hjt)].
      * left. apply elem_of_union. by right.
      * apply elem_of_cons in Hg as [->|Hg].
        -- left. apply elem_of_union. left. by apply elem_of_singleton.
        -- right. by exists g.
Qed.

Lemma uses_type_spec (fields : list SQLField) (jt : string) :
  uses_type fields jt = true ↔ ∃ f, f ∈ fields ∧ java_type f = jt.
Proof.
  unfold uses_type. rewrite existsb_exists. split.
  - intros (f & Hin & Heq). exists f.
    by rewrite list_elem_of_In, <- String.eqb_eq.
  - intros (f & Hin & Heq). exists f.
    by rewrite <- list_elem_of_In, String.eqb_eq.
Qed.

Lemma is_type_used_init (name : string) (comment : option string)
    (fields : list SQLField) (jt : string) :
  is_type_used (SQLTable_init name comment fields) jt = uses_type fields jt.
Proof.
  apply Bool.eq_iff_eq_true. unfold is_type_used. simpl.
  rewrite bool_decide_eq_true, java_type_set_fold, uses_type_spec.
  split; [|by right]. intros [H|H]; [|exact H]. by apply elem_of_empty in H.
Qed.

(** ** The schema reader *)

Lemma for_each_collect {A B : Type} (f : A → result B) (l : list A)
    (acc : list B) :
  for_each l (λ acc a, b ← f a; mret (acc ++ [b])) acc
  = (bs ← map_result f l; mret (acc ++ bs)).
Proof.
  revert acc. induction l as [|a l IH]; intros acc; simpl.
  - by rewrite app_nil_r.
  - destruct (f a) as [b|e]; simpl; [|reflexivity].
    rewrite IH. destruct (map_result f l) as [bs|e]; simpl; [|reflexivity].
    by rewrite <- app_assoc.
Qed.

Lemma for_each_ext {A S : Type} (body1 body2 : S → A → result S)
    (l : list A) (s : S) :
  (∀ s a, body1 s a = body2 s a) →
  for_each l body1 s = for_each l body2 s.
Proof.
  intros Hext. revert s. induction l as [|a l IH]; intros s; simpl;
    [reflexivity|].
  rewrite Hext. destruct (body2 s a); simpl; [apply IH|reflexivity].
Qed.

Lemma map_result_ok {A B : Type} (f : A → result B) (l : list A)
    (bs : list B) :
  map_result f l = Ok bs → Forall2 (λ a b, f a = Ok b) l bs.
Proof.
  revert bs. induction l as [|a l IH]; intros bs; simpl.
  - intros [= <-]. constructor.
  - destruct (f a) as [b|e] eqn:Hfa; simpl; [|done].
    destruct (map_result f l) as [bs'|e]; simpl; [|done].
    intros [= <-]. constructor; [done|]. by apply IH.
Qed.

(** What the reader returns: one field per row of [DESC], in the order of
    the rows, with the name, the resolved type and the comment of the
    column. *)
Lemma parseSqlTable_ok (cursor : Cursor) (table : string) (args : Args.t)
    (t : SQLTable) :
  parseSqlTable cursor table args = Ok t →
  table_name t = table
  ∧ (∃ c, t = SQLTable_init table c (fields t))
  ∧ Forall2 (λ r f,
       sql_field_name f = Py.remove_char "`" r.1
       ∧ resolve_type r.2 = Ok (java_type f)
       ∧ java_field_name f = to_camel_case (sql_field_name f)
       ∧ fetch_column_info cursor table !! sql_field_name f
         = Some (comment f))
      (desc_rows cursor table) (fields t).
Proof.
  unfold parseSqlTable.
  rewrite (for_each_collect
             (λ r, SQLField_init r.1 (extract_sql_type r.2) "")).
  destruct (map_result _ (desc_rows cursor table)) as [fs0|e] eqn:H0;
    simpl; [|done].
  rewrite (for_each_ext _
             (λ acc f, b ← (c ← dict_index (fetch_column_info cursor table)
                                  (sql_field_name f);
                            mret (set_comment f c));
                       mret (acc ++ [b]))); cycle 1.
  { intros acc f. by destruct (dict_index _ _). }
  rewrite (for_each_collect
             (λ f, c ← dict_index (fetch_column_info cursor table)
                         (sql_field_name f);
                   mret (set_comment f c))).
  destruct (map_result _ fs0) as [fs1|e] eqn:H1; simpl; [|done].
  destruct (fetch_table_comment cursor table) as [tc|e]; simpl; [|done].
  intros [= <-]. simpl. split; [reflexivity|]. split; [by exists tc|].
  apply map_result_ok in H0, H1.
  revert fs1 H1. induction H0 as [|r f0 rl fs0 Hr _ IH]; intros fs1 H1.
  - inversion H1. constructor.
  - inversion H1 as [|? f1 ? fs1' Hf H1']; subst. constructor; [|by apply IH].
    unfold SQLField_init in Hr. unfold resolve_type.
    destruct (to_java_type (extract_sql_type r.2)) as [jt|e]; simpl in Hr;
      [|done].
    injection Hr as <-. simpl in Hf. unfold dict_index in Hf.
    destruct (fetch_column_info cursor table !! _) as [c|] eqn:Hc;
      simpl in Hf; [|done].
    injection Hf as <-. by simpl.
Qed.

(** ** The class renderer *)

(** C3: under the ORM-annotations flag the class carries the table-binding
    annotation with the literal table name, right before its declaration,
    and every field, in column order, carries one annotation between its
    doc comment and its declaration: the identifier annotation when its
    column name matches [id], the field-binding annotation with the column
    name otherwise; without the flag these places are empty, so that the
    class is made of its doc comment, the data annotation if any, the
    declaration, the doc comment and declaration of each field and the
    accessors. *)
Theorem orm_annotations (sm : string → string → bool) (table : SQLTable)
    (ap : Args.t) (spec_class_name package : option string) :
  generate_java_class sm table ap spec_class_name package
  = preamble table ap package
    +:+ doc_comment (table_comment table) (Args.author ap)
    +:+ opt (Args.lambok ap) data_annotation
    +:+ opt (Args.mybatis ap) (table_name_annotation (table_name table))
    +:+ class_decl (default (supply_java_class_name table) spec_class_name)
          (Args.extends ap)
    +:+ join (λ f, field_doc f
                   +:+ opt (Args.mybatis ap)
                         (if sm (sql_field_name f) "id"
                          then table_id_annotation
                          else table_field_annotation (sql_field_name f))
                   +:+ field_decl f)
          (fields table)
    +:+ opt (negb (Args.lambok ap)) (join accessor_pair (fields table))
    +:+ "}" +:+ Py.nl
  ∧ (Args.mybatis ap = false →
     generate_java_class sm table ap spec_class_name package
     = preamble table ap package
       +:+ doc_comment (table_comment table) (Args.author ap)
       +:+ opt (Args.lambok ap) data_annotation
       +:+ class_decl (default (supply_java_class_name table) spec_class_name)
             (Args.extends ap)
       +:+ join (λ f, field_doc f +:+ field_decl f) (fields table)
       +:+ opt (negb (Args.lambok ap)) (join accessor_pair (fields table))
       +:+ "}" +:+ Py.nl).
Proof.
  split; [by rewrite generate_java_class_sections|].
  intros Hoff. rewrite generate_java_class_sections. unfold class_text.
  rewrite Hoff. by rewrite sapp_nil_l.
Qed.

(** C5: the fields of a table the schema reader returns follow the rows
    of [DESC]; the rendered class ends with the field declarations in that
    order, then, unless the data-annotation toggle is set, one getter and
    one setter per field in the same order, then the closing brace; under
    the toggle the closing brace follows the fields at once. *)
Theorem fields_in_column_order (sm : string → string → bool)
    (cursor : Cursor) (name : string) (args : Args.t) (table : SQLTable)
    (ap : Args.t) (spec_class_name package : option string) :
  parseSqlTable cursor name args = Ok table →
  Forall2 (λ r f, sql_field_name f = Py.remove_char "`" r.1
                  ∧ resolve_type r.2 = Ok (java_type f))
    (desc_rows cursor name) (fields table)
  ∧ generate_java_class sm table ap spec_class_name package
    = (preamble table ap package
       +:+ doc_comment (table_comment table) (Args.author ap)
       +:+ opt (Args.lambok ap) data_annotation
       +:+ opt (Args.mybatis ap) (table_name_annotation (table_name table))
       +:+ class_decl
             (default (supply_java_class_name table) spec_class_name)
             (Args.extends ap))
      +:+ join (λ f, field_doc f
                     +:+ opt (Args.mybatis ap) (field_annotation sm f)
                     +:+ field_decl f)
            (fields table)
      +:+ opt (negb (Args.lambok ap))
            (join (λ f, getter f +:+ setter f) (fields table))
      +:+ "}" +:+ Py.nl
  ∧ (Args.lambok ap = true →
     generate_java_class sm table ap spec_class_name package
     = (preamble table ap package
        +:+ doc_comment (table_comment table) (Args.author ap)
        +:+ data_annotation
        +:+ opt (Args.mybatis ap) (table_name_annotation (table_name table))
        +:+ class_decl
              (default (supply_java_class_name table) spec_class_name)
              (Args.extends ap))
       +:+ join (λ f, field_doc f
                      +:+ opt (Args.mybatis ap) (field_annotation sm f)
                      +:+ field_decl f)
             (fields table)
       +:+ "}" +:+ Py.nl).
Proof.
  intros Hparse. split; [|split].
  - destruct (parseSqlTable_ok _ _ _ _ Hparse) as (_ & _ & H).
    eapply Forall2_impl; [exact H|]. intros r f (Hn & Ht & _). by split.
  - rewrite generate_java_class_sections. unfold class_text.
    by rewrite !sapp_assoc.
  - intros Hon. rewrite generate_java_class_sections. unfold class_text.
    rewrite Hon. simpl opt. by rewrite !sapp_assoc, sapp_nil_l.
Qed.

(** C7: the import of [java.time] is there exactly when some column has
    the target type [LocalDateTime], the import of [java.math] exactly
    when some column has the target type [BigDecimal], the import of the
    ORM annotations exactly under the ORM flag, the import of [lombok]
    exactly under the data-annotation toggle, the import of the base class
    exactly when one is given. *)
Theorem imports_when_needed (sm : string → string → bool) (name : string)
    (comment : option string) (fields : list SQLField) (ap : Args.t)
    (spec_class_name package : option string) :
  (∀ jt, uses_type fields jt = true ↔ ∃ f, f ∈ fields ∧ java_type f = jt)
  ∧ generate_java_class sm (SQLTable_init name comment fields) ap
      spec_class_name package
    = package_decl package
      +:+ opt (uses_type fields "LocalDateTime") import_datetime
      +:+ opt (uses_type fields "BigDecimal") import_decimal
      +:+ Py.nl
      +:+ opt (Args.mybatis ap) import_orm
      +:+ Py.nl
      +:+ opt (Args.lambok ap) import_lombok
      +:+ opt (Py.truthy_opt (Args.extends ap))
            (import_base (default "" (Args.extends ap)))
      +:+ Py.nl
      +:+ class_text sm (SQLTable_init name comment fields) ap
            (default (supply_java_class_name
                        (SQLTable_init name comment fields))
               spec_class_name).
Proof.
  split; [intros jt; apply uses_type_spec|].
  rewrite generate_java_class_sections. unfold preamble.
  rewrite !is_type_used_init. by rewrite !sapp_assoc.
Qed.

(** C9: two option namespaces that differ in the excluded fields only
    give the same rendering, and the same file name and text for a table
    read from the database. *)
Theorem excl_not_observed (sm : string → string → bool) (cursor : Cursor)
    (table : SQLTable) (name : string) (ap1 ap2 : Args.t)
    (spec_class_name package : option string) :
  Args.set_excl ap1 None = Args.set_excl ap2 None →
  generate_java_class sm table ap1 spec_class_name package
  = generate_java_class sm table ap2 spec_class_name package
  ∧ generate_for_table sm cursor ap1 name
    = generate_for_table sm cursor ap2 name.
Proof.
  destruct ap1, ap2. unfold Args.set_excl. simpl.
  intros [= -> -> -> -> -> -> -> -> -> ->]. split; reflexivity.
Qed.

(** ** The class name *)

(** C6: a class name given to the renderer is the name of the class,
    whatever the table and the package; without one the name comes from
    the table.  The driver gives the renderer the name it takes from the
    output path when the path names a [.java] file, whatever the table,
    and the name from the table otherwise; the table [t_order] gives
    [TOrder]. *)
Theorem class_name_precedence :
  (∀ sm table ap n package,
     generate_java_class sm table ap (Some n) package
     = preamble table ap package +:+ class_text sm table ap n)
  ∧ (∀ sm table ap package,
       generate_java_class sm table ap None package
       = preamble table ap package
         +:+ class_text sm table ap
               (first_char_upper (to_camel_case (table_name table))))
  ∧ (∀ ap table o,
       Args.output ap = Some o → 0 ≤ Py.rfind o ".java" →
       (output_target ap table).1
       = Py.slice o
           (Z.to_nat (if Py.rfind o "/" =? -1 then 0 else Py.rfind o "/" + 1))
           (Z.to_nat (Py.rfind o ".java")))
  ∧ (∀ ap table,
       Py.rfind (default "" (Args.output ap)) ".java" = -1 →
       (output_target ap table).1
       = first_char_upper (to_camel_case (table_name table)))
  ∧ (∀ sm cursor ap name fn text,
       generate_for_table sm cursor ap name = Ok (fn, text) →
       ∃ table, parseSqlTable cursor name ap = Ok table
         ∧ text = preamble table ap (guess_package fn)
                  +:+ class_text sm table ap (output_target ap table).1)
  ∧ supply_java_class_name (SQLTable_init "t_order" None []) = "TOrder".
Proof.
  split; [|split; [|split; [|split; [|split]]]].
  - intros. by rewrite generate_java_class_sections.
  - intros. by rewrite generate_java_class_sections.
  - intros ap table o Ho Hhi. unfold output_target. rewrite Ho. simpl.
    destruct o as [|c o]; [by vm_compute in Hhi|]. simpl Py.truthy.
    cbv iota.
    destruct (-1 <? Py.rfind (String c o) ".java") eqn:E; [reflexivity|].
    apply Z.ltb_ge in E. lia.
  - intros ap table Hhi. unfold output_target.
    destruct (Args.output ap) as [[|c o]|]; simpl in *; try reflexivity.
    rewrite Hhi. reflexivity.
  - intros sm cursor ap name fn text. unfold generate_for_table.
    destruct (parseSqlTable cursor name ap) as [table|e]; simpl; [|done].
    destruct (output_target ap table) as [cn fn'] eqn:E. intros [= <- <-].
    exists table. split; [reflexivity|].
    by rewrite generate_java_class_sections, E.
  - vm_compute. reflexivity.
Qed.

(** ** A table that does not exist *)

(** Without a row of the table-comment query the reader returns no table,
    whatever the other queries return. *)
Lemma parse_needs_table_comment (cursor : Cursor) (table : string)
    (args : Args.t) :
  table_comment_rows cursor table = [] →
  ∃ e, parseSqlTable cursor table args = Raise e.
Proof.
  intros Ht. unfold parseSqlTable, fetch_table_comment. rewrite Ht.
  destruct (for_each (desc_rows cursor table) _ []) as [fs0|e]; simpl;
    [|by exists e].
  destruct (for_each fs0 _ []) as [fs1|e]; simpl; [|by exists e].
  by eexists.
Qed.

(** C8: when the three queries return no rows the reader returns no table:
    the table-comment lookup indexes the empty list of rows and the
    [IndexError] of that access leaves [parseSqlTable]. *)
Theorem parse_no_rows (cursor : Cursor) (table : string) (args : Args.t) :
  desc_rows cursor table = [] →
  column_comment_rows cursor table = [] →
  table_comment_rows cursor table = [] →
  parseSqlTable cursor table args
  = Raise (IndexError "list index out of range").
Proof.
  intros Hd _ Ht. unfold parseSqlTable, fetch_table_comment.
  by rewrite Hd, Ht.
Qed.

(** ** The examples of the specification *)

Example first_char_upper_orderNum : first_char_upper "orderNum" = "OrderNum".
Proof. reflexivity. Qed.

Example parse_t_order :
  parseSqlTable example_cursor "t_order" example_args = Ok example_table.
Proof. vm_compute. reflexivity. Qed.

Example render_t_order :
  generate_for_table String.eqb example_cursor example_args "t_order"
  = Ok ("TOrder.java",
        text_of_lines
          [ "import java.time.*;"; ""; ""; ""; "/**"; " * "; " */";
            "public class TOrder {"; "";
            "    /**  */"; "    private Integer id;"; "";
            "    /**  */"; "    private String orderNo;"; "";
            "    /**  */"; "    private LocalDateTime createdAt;"; "";
            "    public Integer getId() {"; "        return this.id";
            "    }"; "";
            "    public void setId(Integer id) {"; "        this.id = id;";
            "    }"; "";
            "    public String getOrderNo() {"; "        return this.orderNo";
            "    }"; "";
            "    public void setOrderNo(String orderNo) {";
            "        this.orderNo = orderNo;"; "    }"; "";
            "    public LocalDateTime getCreatedAt() {";
            "        return this.createdAt"; "    }"; "";
            "    public void setCreatedAt(LocalDateTime createdAt) {";
            "        this.createdAt = createdAt;"; "    }"; "";
            "}" ]).
Proof. vm_compute. reflexivity. Qed.

Example render_t_order_orm :
  generate_for_table String.eqb example_cursor example_args_orm "t_order"
  = Ok ("TOrder.java",
        text_of_lines
          [ "import java.time.*;"; "";
            "import com.baomidou.mybatisplus.annotation.*;"; ""; "";
            "/**"; " * "; " */";
            "@TableName(value = " +:+ Py.dquote +:+ "t_order" +:+ Py.dquote
              +:+ ", autoResultMap = true)";
            "public class TOrder {"; "";
            "    /**  */"; "    @TableId(type = IdType.AUTO)";
            "    private Integer id;"; "";
            "    /**  */";
            "    @TableField(" +:+ Py.dquote +:+ "order_no" +:+ Py.dquote
              +:+ ")";
            "    private String orderNo;"; "";
            "    /**  */";
            "    @TableField(" +:+ Py.dquote +:+ "created_at" +:+ Py.dquote
              +:+ ")";
            "    private LocalDateTime createdAt;"; "";
            "    public Integer getId() {"; "        return this.id";
            "    }"; "";
            "    public void setId(Integer id) {"; "        this.id = id;";
            "    }"; "";
            "    public String getOrderNo() {"; "        return this.orderNo";
            "    }"; "";
            "    public void setOrderNo(String orderNo) {";
            "        this.orderNo = orderNo;"; "    }"; "";
            "    public LocalDateTime getCreatedAt() {";
            "        return this.createdAt"; "    }"; "";
            "    public void setCreatedAt(LocalDateTime createdAt) {";
            "        this.createdAt = createdAt;"; "    }"; "";
            "}" ]).
Proof. vm_compute. reflexivity. Qed.

(** ** Instances of the theorems *)

Lemma fields_in_column_order_example :
  parseSqlTable example_cursor "t_order" example_args = Ok example_table
  ∧ Forall2 (λ r f, sql_field_name f = Py.remove_char "`" r.1
                    ∧ resolve_type r.2 = Ok (java_type f))
      (desc_rows example_cursor "t_order") (fields example_table).
Proof.
  assert (parseSqlTable example_cursor "t_order" example_args
          = Ok example_table) as H by (vm_compute; reflexivity).
  split; [exact H|].
  exact (proj1 (fields_in_column_order String.eqb example_cursor "t_order"
                  example_args example_table example_args None None H)).
Defined.

Lemma orm_annotations_example :
  Args.mybatis example_args = false
  ∧ generate_java_class String.eqb example_table example_args None None
    = preamble example_table example_args None
      +:+ doc_comment "" ""
      +:+ class_decl "TOrder" None
      +:+ join (λ f, field_doc f +:+ field_decl f) (fields example_table)
      +:+ join accessor_pair (fields example_table)
      +:+ "}" +:+ Py.nl.
Proof.
  split; [reflexivity|].
  exact (proj2 (orm_annotations String.eqb example_table example_args
                  None None) eq_refl).
Defined.

Lemma excl_not_observed_example :
  Args.set_excl example_args_excl None = Args.set_excl example_args None
  ∧ generate_java_class String.eqb example_table example_args_excl None None
    = generate_java_class String.eqb example_table example_args None None
  ∧ generate_for_table String.eqb example_cursor example_args_excl "t_order"
    = generate_for_table String.eqb example_cursor example_args "t_order".
Proof.
  split; [reflexivity|].
  apply (excl_not_observed String.eqb example_cursor example_table "t_order"
           example_args_excl example_args None None).
  reflexivity.
Defined.

Lemma class_name_precedence_example :
  (output_target example_args_output example_table).1 = "Order"
  ∧ (output_target example_args example_table).1 = "TOrder".
Proof.
  destruct class_name_precedence as (_ & _ & Hpath & Htable & _). split.
  - rewrite (Hpath example_args_output example_table
               "/work/src/main/java/com/shop/Order.java").
    + vm_compute. reflexivity.
    + reflexivity.
    + vm_compute. discriminate.
  - rewrite (Htable example_args example_table).
    + vm_compute. reflexivity.
    + vm_compute. reflexivity.
Defined.

Lemma parse_no_rows_example :
  desc_rows empty_cursor "t_order" = []
  ∧ column_comment_rows empty_cursor "t_order" = []
  ∧ table_comment_rows empty_cursor "t_order" = []
  ∧ parseSqlTable empty_cursor "t_order" example_args
    = Raise (IndexError "list index out of range").
Proof.
  split; [reflexivity|]. split; [reflexivity|]. split; [reflexivity|].
  apply (parse_no_rows empty_cursor "t_order" example_args); reflexivity.
Defined.

(** For the table [t_order] of a database whose queries return no rows the
    reader raises [IndexError('list index out of range')]: no
    [TableNotFoundError], and nothing in it names the table. *)
Lemma table_not_found_counterexample :
  desc_rows empty_cursor "t_order" = []
  ∧ column_comment_rows empty_cursor "t_order" = []
  ∧ table_comment_rows empty_cursor "t_order" = []
  ∧ ¬ ∃ e, parseSqlTable empty_cursor "t_order" example_args = Raise e
           ∧ is_table_not_found "t_order" e.
Proof.
  split; [reflexivity|]. split; [reflexivity|]. split; [reflexivity|].
  intros (e & He & Hnf).
  vm_compute in He. injection He as <-. destruct Hnf as [Hc|Hm].
  - vm_compute in Hc. discriminate.
  - vm_compute in Hm. by apply Hm.
Qed.

(** * Further properties *)

(** ** Characters *)

Lemma upper_char_underscore (c : ascii) :
  Py.upper_char c = "_"%char → c = "_"%char.
Proof. destruct c as [[] [] [] [] [] [] [] []]; vm_compute; congruence. Qed.

Lemma lower_char_underscore (c : ascii) :
  Py.lower_char c = "_"%char → c = "_"%char.
Proof. destruct c as [[] [] [] [] [] [] [] []]; vm_compute; congruence. Qed.

Lemma upper_char_backtick (c : ascii) :
  Py.upper_char c = "`"%char → c = "`"%char.
Proof. destruct c as [[] [] [] [] [] [] [] []]; vm_compute; congruence. Qed.

Lemma lower_char_backtick (c : ascii) :
  Py.lower_char c = "`"%char → c = "`"%char.
Proof. destruct c as [[] [] [] [] [] [] [] []]; vm_compute; congruence. Qed.

Lemma upper_char_idemp (c : ascii) :
  Py.upper_char (Py.upper_char c) = Py.upper_char c.
Proof. destruct c as [[] [] [] [] [] [] [] []]; reflexivity. Qed.

Lemma lower_char_idemp (c : ascii) :
  Py.lower_char (Py.lower_char c) = Py.lower_char c.
Proof. destruct c as [[] [] [] [] [] [] [] []]; reflexivity. Qed.

Lemma lower_upper_char (c : ascii) :
  Py.lower_char (Py.upper_char c) = Py.lower_char c.
Proof. destruct c as [[] [] [] [] [] [] [] []]; reflexivity. Qed.

Lemma upper_lower_char (c : ascii) :
  Py.upper_char (Py.lower_char c) = Py.upper_char c.
Proof. destruct c as [[] [] [] [] [] [] [] []]; reflexivity. Qed.

Lemma ascii_eqb_false (c d : ascii) : c ≠ d → Ascii.eqb c d = false.
Proof. intros H. by apply Ascii.eqb_neq. Qed.

(** ** Case of a text *)

Lemma map_chars_compose (f g : ascii → ascii) (s : string) :
  Py.map_chars f (Py.map_chars g s) = Py.map_chars (λ c, f (g c)) s.
Proof. induction s as [|c s IH]; simpl; [reflexivity|]. by rewrite IH. Qed.

Lemma map_chars_ext (f g : ascii → ascii) (s : string) :
  (∀ c, f c = g c) → Py.map_chars f s = Py.map_chars g s.
Proof.
  intros H. induction s as [|c s IH]; simpl; [reflexivity|]. by rewrite H, IH.
Qed.

Lemma lower_idemp (s : string) : Py.lower (Py.lower s) = Py.lower s.
Proof.
  unfold Py.lower. rewrite map_chars_compose. apply map_chars_ext.
  apply lower_char_idemp.
Qed.

Lemma lower_upper (s : string) : Py.lower (Py.upper s) = Py.lower s.
Proof.
  unfold Py.lower, Py.upper. rewrite map_chars_compose. apply map_chars_ext.
  apply lower_upper_char.
Qed.

Lemma map_chars_length (f : ascii → ascii) (s : string) :
  String.length (Py.map_chars f s) = String.length s.
Proof. induction s as [|a s IH]; simpl; [reflexivity|]. by rewrite IH. Qed.

Lemma lower_count_underscore (s : string) :
  count_char "_" (Py.lower s) = count_char "_" s.
Proof.
  unfold Py.lower.
  induction s as [|c s IH]; [reflexivity|].
  cbn [count_char char_in Py.map_chars]. rewrite IH. f_equal.
  destruct (Ascii.eqb_spec c "_") as [->|Hc]; [reflexivity|].
  assert (Py.lower_char c ≠ "_"%char) as Hl
    by (intros H; apply lower_char_underscore in H; contradiction).
  by rewrite (ascii_eqb_false _ _ Hl).
Qed.

Lemma lower_char_in_underscore (s : string) :
  char_in "_" (Py.lower s) = char_in "_" s.
Proof.
  unfold Py.lower.
  induction s as [|c s IH]; [reflexivity|].
  cbn [count_char char_in Py.map_chars]. rewrite IH. f_equal.
  destruct (Ascii.eqb_spec c "_") as [->|Hc]; [reflexivity|].
  assert (Py.lower_char c ≠ "_"%char) as Hl
    by (intros H; apply lower_char_underscore in H; contradiction).
  by rewrite (ascii_eqb_false _ _ Hl).
Qed.

(** ** The identifier normalizer *)

Lemma camel_scan_no_underscore (flag : bool) (s : string) :
  char_in "_" (camel_scan flag s) = false.
Proof.
  revert flag. induction s as [|c s IH]; intros flag; simpl; [reflexivity|].
  destruct (Ascii.eqb_spec c "_") as [->|Hc]; [apply IH|].
  simpl. rewrite IH, orb_false_r. apply ascii_eqb_false.
  destruct flag; [|exact Hc]. intros H. by apply upper_char_underscore in H.
Qed.

Lemma camel_scan_length (flag : bool) (s : string) :
  (String.length (camel_scan flag s) + count_char "_" s)%nat
  = String.length s.
Proof.
  revert flag. induction s as [|c s IH]; intros flag; simpl; [reflexivity|].
  destruct (Ascii.eqb c "_"); simpl.
  - specialize (IH true). lia.
  - specialize (IH false). lia.
Qed.

Lemma camel_scan_plain (s : string) :
  char_in "_" s = false → camel_scan false s = s.
Proof.
  induction s as [|c s IH]; simpl; [reflexivity|].
  destruct (Ascii.eqb c "_"); simpl; [done|]. intros H. by rewrite IH.
Qed.

(** X1: the name [to_camel_case] returns has no underscore, whatever the
    input. *)
Theorem to_camel_case_no_underscore (s : string) :
  char_in "_" (to_camel_case s) = false.
Proof. rewrite to_camel_case_scan. apply camel_scan_no_underscore. Qed.

(** X2: on ASCII text the name [to_camel_case] returns has one character
    per character of the input that is no underscore: underscores are the
    only characters dropped, at the start, at the end and when doubled as
    well. *)
Theorem to_camel_case_length (s : string) :
  is_ascii s = true →
  String.length (to_camel_case s)
  = (String.length s - count_char "_" s)%nat.
Proof.
  intros _. rewrite to_camel_case_scan. unfold toCamelCase.
  pose proof (camel_scan_length false (Py.lower s)) as H.
  rewrite lower_count_underscore in H.
  assert (String.length (Py.lower s) = String.length s) as Hl
    by apply map_chars_length.
  lia.
Qed.

(** X3: a text without underscore is lowercased and nothing else: the
    capitals of a column such as [userId] are lost. *)
Theorem to_camel_case_without_underscore (s : string) :
  char_in "_" s = false → to_camel_case s = Py.lower s.
Proof.
  intros H. rewrite to_camel_case_scan. unfold toCamelCase.
  apply camel_scan_plain. by rewrite lower_char_in_underscore.
Qed.

(** X4: on ASCII text [first_char_upper] and [first_char_lower] keep the
    length and everything after the first character, each is idempotent
    and each undoes the other on the first character. *)
Theorem first_char_case (s : string) :
  is_ascii s = true →
  String.length (first_char_upper s) = String.length s
  ∧ String.length (first_char_lower s) = String.length s
  ∧ Py.drop 1 (first_char_upper s) = Py.drop 1 s
  ∧ Py.drop 1 (first_char_lower s) = Py.drop 1 s
  ∧ first_char_upper (first_char_upper s) = first_char_upper s
  ∧ first_char_lower (first_char_lower s) = first_char_lower s
  ∧ first_char_lower (first_char_upper s) = first_char_lower s
  ∧ first_char_upper (first_char_lower s) = first_char_upper s.
Proof.
  intros _. destruct s as [|c s]; [by repeat split|].
  repeat first [rewrite first_char_upper_cons|rewrite first_char_lower_cons].
  rewrite upper_char_idemp, lower_char_idemp, lower_upper_char,
    upper_lower_char.
  by repeat split.
Qed.

(** ** The pattern of [extract_sql_type], continued *)

Lemma all_chars_app (p : ascii → bool) (a b : string) :
  all_chars p (a +:+ b) = all_chars p a && all_chars p b.
Proof.
  induction a as [|c a IH]; [reflexivity|]. rewrite sapp_cons. simpl.
  by rewrite IH, andb_assoc.
Qed.

(** A word has no parenthesis: the pattern does not match it. *)
Lemma match_sql_type_word (w : string) :
  all_chars Py.is_word w = true → match_sql_type w = None.
Proof.
  intros Hw. destruct (match_sql_type w) as [x|] eqn:Hm; [|reflexivity].
  apply match_sql_type_regex in Hm. revert Hw.
  destruct Hm as [ws x ds ts _ _ _ _ _ _]. intros Hw.
  rewrite !all_chars_app in Hw.
  repeat (apply andb_prop in Hw as [? Hw]). discriminate.
Qed.

(** X5: [extract_sql_type] is idempotent: what it returns is returned
    unchanged when given again, so a type already stripped by the reader
    may be stripped once more without harm. *)
Theorem extract_sql_type_idempotent (s : string) :
  extract_sql_type (extract_sql_type s) = extract_sql_type s.
Proof.
  destruct (match_sql_type s) as [w|] eqn:Hm.
  - assert (extract_sql_type s = w) as ->
      by (unfold extract_sql_type; by rewrite Hm).
    apply match_sql_type_regex in Hm.
    destruct Hm as [ws w ds ts _ _ Hw _ _ _].
    unfold extract_sql_type. by rewrite (match_sql_type_word w Hw).
  - assert (extract_sql_type s = s) as H
      by (unfold extract_sql_type; by rewrite Hm).
    by rewrite !H.
Qed.

(** X6: [extract_sql_type] returns the keyword of the texts made of white
    space, a word, a parenthesized run of digits and white space, and
    every other text as it is: a type with two numbers, with a word after
    the parenthesis or with a list of values keeps its suffix. *)
Theorem extract_sql_type_cases (s : string) :
  (∀ w, sql_type_pattern s w → extract_sql_type s = w)
  ∧ ((∀ w, ¬ sql_type_pattern s w) → extract_sql_type s = s)
  ∧ extract_sql_type "int(11) unsigned" = "int(11) unsigned"
  ∧ extract_sql_type "enum('a','b')" = "enum('a','b')"
  ∧ extract_sql_type " INT(11) " = "INT".
Proof.
  split; [|split; [|by vm_compute]].
  - intros w Hw. apply match_sql_type_regex in Hw.
    unfold extract_sql_type. by rewrite Hw.
  - intros Hno. unfold extract_sql_type.
    destruct (match_sql_type s) as [w|] eqn:Hm; [|reflexivity].
    apply match_sql_type_regex in Hm. by destruct (Hno w).
Qed.

(** ** The type mapper, continued *)

Lemma to_java_type_ok (s v : string) :
  to_java_type s = Ok v → (Py.lower s, v) ∈ documented_types ∧ v ∈ java_types.
Proof.
  unfold to_java_type.
  destruct (sql_java_type_mapping !! Py.lower s) as [v'|] eqn:H; [|done].
  intros [= <-]. apply documented_types_mapping in H. split; [exact H|].
  unfold documented_types in H. generalize dependent (Py.lower s). intros k H.
  unfold java_types.
  repeat (apply elem_of_cons in H as [[= -> ->]|H]; [set_solver|]).
  by apply elem_of_nil in H.
Qed.

(** X7: on ASCII text [to_java_type] does not depend on the case of its
    argument: a type in capitals, in small letters or mixed resolves, or
    fails, the same way. *)
Theorem to_java_type_case (s : string) :
  is_ascii s = true →
  to_java_type (Py.upper s) = to_java_type s
  ∧ to_java_type (Py.lower s) = to_java_type s.
Proof.
  intros _. unfold to_java_type. by rewrite lower_upper, lower_idemp.
Qed.

(** ** Fields *)

Lemma remove_char_gone (c : ascii) (s : string) :
  char_in c (Py.remove_char c s) = false.
Proof.
  induction s as [|d s IH]; [reflexivity|]. cbn [Py.remove_char].
  destruct (Ascii.eqb d c) eqn:E; [exact IH|].
  cbn [char_in]. by rewrite E, IH.
Qed.

Lemma lower_no_backtick (s : string) :
  char_in "`" s = false → char_in "`" (Py.lower s) = false.
Proof.
  unfold Py.lower. induction s as [|c s IH]; [reflexivity|].
  cbn [char_in Py.map_chars]. intros H. apply orb_false_elim in H as [Hc Hs].
  rewrite (IH Hs), orb_false_r. apply ascii_eqb_false. intros E.
  apply lower_char_backtick in E. subst c. discriminate.
Qed.

Lemma camel_scan_no_backtick (flag : bool) (s : string) :
  char_in "`" s = false → char_in "`" (camel_scan flag s) = false.
Proof.
  revert flag. induction s as [|c s IH]; intros flag; [reflexivity|].
  cbn [char_in camel_scan]. intros H. apply orb_false_elim in H as [Hc Hs].
  destruct (Ascii.eqb c "_"); [by apply IH|].
  cbn [char_in]. rewrite (IH false Hs), orb_false_r.
  destruct flag; [|exact Hc]. apply ascii_eqb_false. intros E.
  apply upper_char_backtick in E. subst c. discriminate.
Qed.

Lemma to_camel_case_no_backtick (s : string) :
  char_in "`" s = false → char_in "`" (to_camel_case s) = false.
Proof.
  intros H. rewrite to_camel_case_scan. unfold toCamelCase.
  by apply camel_scan_no_backtick, lower_no_backtick.
Qed.

(** X8: the constructor of [SQLField] fails exactly as [to_java_type]
    does on the type it is given; the field it builds otherwise has the
    type [to_java_type] returns, one of the five target types, a column
    name without backtick and a Java name without backtick and without
    underscore. *)
Theorem SQLField_init_result (name ty c : string) :
  (∀ e, to_java_type ty = Raise e → SQLField_init name ty c = Raise e)
  ∧ (∀ f, SQLField_init name ty c = Ok f →
       to_java_type ty = Ok (java_type f)
       ∧ java_type f ∈ java_types
       ∧ comment f = c
       ∧ char_in "`" (sql_field_name f) = false
       ∧ char_in "`" (java_field_name f) = false
       ∧ char_in "_" (java_field_name f) = false).
Proof.
  unfold SQLField_init. split.
  - intros e He. by rewrite He.
  - intros f. destruct (to_java_type ty) as [jt|e] eqn:Hjt; simpl; [|done].
    intros [= <-]. simpl. split; [reflexivity|].
    split; [by apply (to_java_type_ok ty)|]. split; [reflexivity|].
    split; [apply remove_char_gone|].
    split; [apply to_camel_case_no_backtick, remove_char_gone|].
    rewrite to_camel_case_scan. apply camel_scan_no_underscore.
Qed.

(** ** The comments of the columns *)

Lemma fold_insert_lookup (rows : list (string * string))
    (m : gmap string string) (k : string) :
  fold_left (λ m row, <[ row.1 := row.2 ]> m) rows m !! k
  = match last (filter (λ row, row.1 = k) rows) with
    | Some row => Some row.2
    | None => m !! k
    end.
Proof.
  revert m. induction rows as [|r rows IH]; intros m; [reflexivity|].
  cbn [fold_left]. rewrite IH, filter_cons.
  destruct (decide (r.1 = k)) as [E|E].
  - rewrite last_cons. destruct (last (filter _ rows)); [reflexivity|].
    by rewrite E, lookup_insert_eq.
  - destruct (last (filter _ rows)); [reflexivity|].
    by rewrite lookup_insert_ne.
Qed.

(** X9: the comment [fetch_column_info] holds for a column is the one of
    the last row of the query with that column name, and a column has an
    entry exactly when some row names it: when the query returns the same
    column name twice (the query selects by table name alone), the later
    row wins. *)
Theorem fetch_column_info_last (cursor : Cursor) (table k : string) :
  fetch_column_info cursor table !! k
  = snd <$> last (filter (λ row, row.1 = k) (column_comment_rows cursor table)).
Proof.
  unfold fetch_column_info. rewrite fold_insert_lookup.
  by destruct (last _).
Qed.

(** ** The schema reader, continued *)

Lemma map_result_app {A B : Type} (f : A → result B) (l1 l2 : list A) :
  map_result f (l1 ++ l2)
  = (b1 ← map_result f l1; b2 ← map_result f l2; mret (b1 ++ b2)).
Proof.
  induction l1 as [|a l1 IH]; simpl.
  - by destruct (map_result f l2).
  - destruct (f a) as [b|e]; simpl; [|reflexivity]. rewrite IH.
    destruct (map_result f l1) as [b1|e]; simpl; [|reflexivity].
    by destruct (map_result f l2).
Qed.

Lemma map_result_total {A B : Type} (f : A → result B) (g : A → B)
    (l : list A) :
  Forall (λ a, f a = Ok (g a)) l → map_result f l = Ok (map g l).
Proof.
  induction 1 as [|a l Ha _ IH]; simpl; [reflexivity|]. by rewrite Ha, IH.
Qed.

Lemma map_result_map {A B C : Type} (f : B → result C) (g : A → B)
    (l : list A) :
  map_result f (map g l) = map_result (λ a, f (g a)) l.
Proof.
  induction l as [|a l IH]; simpl; [reflexivity|]. by rewrite IH.
Qed.

(** The two loops and the table comment, one after the other. *)
Lemma parseSqlTable_loops (cursor : Cursor) (table : string) (args : Args.t) :
  parseSqlTable cursor table args
  = (fs0 ← map_result (λ r, SQLField_init r.1 (extract_sql_type r.2) "")
             (desc_rows cursor table);
     fs1 ← map_result
             (λ f, c ← dict_index (fetch_column_info cursor table)
                         (sql_field_name f);
                   mret (set_comment f c)) fs0;
     c ← fetch_table_comment cursor table;
     mret (SQLTable_init table c fs1)).
Proof.
  unfold parseSqlTable.
  rewrite (for_each_collect
             (λ r, SQLField_init r.1 (extract_sql_type r.2) "")).
  destruct (map_result _ (desc_rows cursor table)) as [fs0|e]; simpl;
    [|reflexivity].
  rewrite (for_each_ext _
             (λ acc f, b ← (c ← dict_index (fetch_column_info cursor table)
                                  (sql_field_name f);
                            mret (set_comment f c));
                       mret (acc ++ [b]))); cycle 1.
  { intros acc f. by destruct (dict_index _ _). }
  rewrite (for_each_collect
             (λ f, c ← dict_index (fetch_column_info cursor table)
                         (sql_field_name f);
                   mret (set_comment f c))).
  by destruct (map_result _ fs0).
Qed.

Lemma SQLField_init_row (r : string * string) (t : string) :
  resolve_type r.2 = Ok t →
  SQLField_init r.1 (extract_sql_type r.2) "" = Ok (row_field ∅ r).
Proof.
  unfold resolve_type, SQLField_init, row_field. intros H.
  unfold resolve_type. by rewrite H.
Qed.

Lemma comment_row (ci : gmap string string) (r : string * string) (c : string) :
  ci !! Py.remove_char "`" r.1 = Some c →
  (c ← dict_index ci (sql_field_name (row_field ∅ r));
   mret (set_comment (row_field ∅ r) c))
  = Ok (row_field ci r).
Proof.
  intros H. unfold dict_index, row_field. cbn [sql_field_name]. rewrite H.
  reflexivity.
Qed.

Lemma first_loop_ok (rows : list (string * string)) :
  Forall (λ r, ∃ t, resolve_type r.2 = Ok t) rows →
  map_result (λ r, SQLField_init r.1 (extract_sql_type r.2) "") rows
  = Ok (map (row_field ∅) rows).
Proof.
  intros H. apply map_result_total. eapply Forall_impl; [exact H|].
  intros r [t Ht]. by apply (SQLField_init_row r t).
Qed.

Lemma second_loop_ok (ci : gmap string string) (rows : list (string * string)) :
  Forall (λ r, is_Some (ci !! Py.remove_char "`" r.1)) rows →
  map_result (λ f, c ← dict_index ci (sql_field_name f);
                   mret (set_comment f c))
    (map (row_field ∅) rows)
  = Ok (map (row_field ci) rows).
Proof.
  intros H. rewrite map_result_map. apply map_result_total.
  eapply Forall_impl; [exact H|]. intros r [c Hc]. by apply (comment_row ci r c).
Qed.

(** X10: the reader returns a table exactly as follows when the type of
    every row of [DESC] resolves, every column has a comment row and the
    table-comment query has a row: the table has the given name, the first
    table comment (a null comment being the empty text) and one field per
    row, in the order of the rows. *)
Theorem parseSqlTable_success (cursor : Cursor) (table : string)
    (args : Args.t) (c : option string) (rest : list (option string)) :
  Forall (λ r, ∃ t, resolve_type r.2 = Ok t) (desc_rows cursor table) →
  Forall (λ r, is_Some (fetch_column_info cursor table
                          !! Py.remove_char "`" r.1))
    (desc_rows cursor table) →
  table_comment_rows cursor table = c :: rest →
  parseSqlTable cursor table args
  = Ok (SQLTable_init table c
          (map (row_field (fetch_column_info cursor table))
             (desc_rows cursor table))).
Proof.
  intros Ht Hc Hrows. rewrite parseSqlTable_loops.
  rewrite (first_loop_ok _ Ht). simpl.
  rewrite (second_loop_ok _ _ Hc). simpl.
  unfold fetch_table_comment. by rewrite Hrows.
Qed.

(** X11: when the type of some row of [DESC] does not resolve, the reader
    raises the [ValueError] of the first such row, whatever the comment
    queries return. *)
Theorem parseSqlTable_unknown_type (cursor : Cursor) (table : string)
    (args : Args.t) (pre post : list (string * string)) (r : string * string) :
  desc_rows cursor table = pre ++ r :: post →
  Forall (λ r', ∃ t, resolve_type r'.2 = Ok t) pre →
  sql_java_type_mapping !! Py.lower (extract_sql_type r.2) = None →
  parseSqlTable cursor table args
  = Raise (ValueError ("Unable to find corresponding java type for "
                       +:+ Py.lower (extract_sql_type r.2))).
Proof.
  intros Hrows Hpre Hr. rewrite parseSqlTable_loops, Hrows, map_result_app.
  rewrite (first_loop_ok _ Hpre). simpl.
  unfold SQLField_init, to_java_type. by rewrite Hr.
Qed.

(** X12: when every type resolves and some column has no comment row, the
    reader raises the [KeyError] of the first such column, whose key is
    the column name without its backticks. *)
Theorem parseSqlTable_missing_comment (cursor : Cursor) (table : string)
    (args : Args.t) (pre post : list (string * string)) (r : string * string) :
  desc_rows cursor table = pre ++ r :: post →
  Forall (λ r', ∃ t, resolve_type r'.2 = Ok t) (desc_rows cursor table) →
  Forall (λ r', is_Some (fetch_column_info cursor table
                           !! Py.remove_char "`" r'.1)) pre →
  fetch_column_info cursor table !! Py.remove_char "`" r.1 = None →
  parseSqlTable cursor table args = Raise (KeyError (Py.remove_char "`" r.1)).
Proof.
  intros Hrows Ht Hpre Hr. rewrite parseSqlTable_loops.
  rewrite (first_loop_ok _ Ht). simpl. rewrite Hrows, map_app, map_result_app.
  rewrite (second_loop_ok _ _ Hpre). simpl.
  unfold dict_index. cbn [sql_field_name row_field]. by rewrite Hr.
Qed.

(** ** Searching a text *)

Lemma startswith_spec (s p : string) :
  Py.startswith s p = true ↔ ∃ b, s = p +:+ b.
Proof.
  unfold Py.startswith. revert s. induction p as [|c p IH]; intros s.
  - split; [intros _; exists s; reflexivity|by destruct s].
  - destruct s as [|d s]; simpl.
    + split; [done|]. by intros [b Hb].
    + destruct (ascii_dec c d) as [->|Hne].
      * rewrite IH. split; intros [b Hb]; exists b.
        -- by rewrite sapp_cons, Hb.
        -- rewrite sapp_cons in Hb. by injection Hb.
      * split; [done|]. intros [b Hb]. rewrite sapp_cons in Hb.
        injection Hb as -> _. done.
Qed.

Lemma startswith_char (d c : ascii) (r : string) :
  Py.startswith (String d r) (String c "") = Ascii.eqb d c.
Proof.
  unfold Py.startswith. simpl. destruct (ascii_dec c d) as [->|Hne].
  - rewrite Ascii.eqb_refl. by destruct r.
  - symmetry. apply ascii_eqb_false. congruence.
Qed.

Lemma startswith_length (s p : string) :
  Py.startswith s p = true → (String.length p ≤ String.length s)%nat.
Proof.
  intros H. apply startswith_spec in H as [b ->]. rewrite sapp_length. lia.
Qed.

Lemma startswith_app (x y p : string) :
  Py.startswith x p = true → Py.startswith (x +:+ y) p = true.
Proof.
  intros H. apply startswith_spec in H as [b ->]. apply startswith_spec.
  exists (b +:+ y). by rewrite sapp_assoc.
Qed.

Lemma startswith_app_inv (x y p : string) :
  (String.length p ≤ String.length x)%nat →
  Py.startswith (x +:+ y) p = true → Py.startswith x p = true.
Proof.
  unfold Py.startswith. revert x. induction p as [|c p IH]; intros x Hl H;
    [by destruct x|].
  destruct x as [|d x]; simpl in Hl; [lia|].
  rewrite sapp_cons in H. simpl in *.
  destruct (ascii_dec c d); [|done]. apply IH; [lia|done].
Qed.

Lemma char_in_app (c : ascii) (a b : string) :
  char_in c (a +:+ b) = char_in c a || char_in c b.
Proof.
  induction a as [|d a IH]; [reflexivity|]. rewrite sapp_cons. simpl.
  by rewrite IH, orb_assoc.
Qed.

(** The last occurrence of a character. *)
Lemma char_in_last (c : ascii) (s : string) :
  char_in c s = true →
  ∃ a b, s = a +:+ String c b ∧ char_in c b = false.
Proof.
  induction s as [|d s IH]; [done|]. cbn [char_in]. intros H.
  destruct (char_in c s) eqn:Hs.
  - destruct (IH eq_refl) as (a & b & -> & Hb). by exists (String d a), b.
  - rewrite orb_false_r in H. apply Ascii.eqb_eq in H as ->. by exists "", s.
Qed.

Lemma rfind_from_char_none (i : nat) (c : ascii) (s : string) :
  char_in c s = false → Py.rfind_from i s (String c "") = -1.
Proof.
  revert i. induction s as [|d s IH]; intros i H; [reflexivity|].
  cbn [char_in] in H. apply orb_false_elim in H as [Hd Hs].
  cbn [Py.rfind_from]. rewrite (IH _ Hs), startswith_char, Hd. reflexivity.
Qed.

Lemma rfind_from_char_last (i : nat) (c : ascii) (a b : string) :
  char_in c b = false →
  Py.rfind_from i (a +:+ String c b) (String c "")
  = Z.of_nat (i + String.length a).
Proof.
  intros Hb. revert i. induction a as [|d a IH]; intros i.
  - rewrite sapp_nil_l. cbn [Py.rfind_from].
    rewrite (rfind_from_char_none _ _ _ Hb), startswith_char, Ascii.eqb_refl.
    simpl. f_equal. lia.
  - rewrite sapp_cons. cbn [Py.rfind_from]. rewrite IH.
    destruct (0 <=? Z.of_nat (S i + String.length a)) eqn:E.
    + simpl. f_equal. lia.
    + apply Z.leb_gt in E. lia.
Qed.

Lemma rfind_char_none (c : ascii) (s : string) :
  Py.rfind s (String c "") = -1 ↔ char_in c s = false.
Proof.
  split; [|apply rfind_from_char_none].
  intros H. destruct (char_in c s) eqn:Hs; [|reflexivity].
  destruct (char_in_last c s Hs) as (a & b & -> & Hb).
  unfold Py.rfind in H. rewrite (rfind_from_char_last 0 c a b Hb) in H. lia.
Qed.

Lemma drop_app_length (a b : string) : Py.drop (String.length a) (a +:+ b) = b.
Proof. induction a as [|c a IH]; [by destruct b|]. exact IH. Qed.

Lemma take_app_length (a b : string) : Py.take (String.length a) (a +:+ b) = a.
Proof.
  induction a as [|c a IH]; [by destruct b|]. rewrite sapp_cons. simpl.
  by rewrite IH.
Qed.

Lemma take_drop (n : nat) (s : string) : Py.take n s +:+ Py.drop n s = s.
Proof.
  revert s. induction n as [|n IH]; intros s; [reflexivity|].
  destruct s as [|c s]; [reflexivity|]. simpl. by rewrite sapp_cons, IH.
Qed.

Lemma take_no_char (c : ascii) (n : nat) (s : string) :
  char_in c s = false → char_in c (Py.take n s) = false.
Proof.
  revert s. induction n as [|n IH]; intros s H; [reflexivity|].
  destruct s as [|d s]; [reflexivity|]. cbn [char_in Py.take] in *.
  apply orb_false_elim in H as [Hd Hs]. by rewrite Hd, (IH _ Hs).
Qed.

(** What follows the last occurrence of a character has none. *)
Lemma drop_after_rfind (c : ascii) (s : string) :
  char_in c (Py.drop (Z.to_nat (Py.rfind s (String c "") + 1)) s) = false.
Proof.
  destruct (char_in c s) eqn:Hs.
  - destruct (char_in_last c s Hs) as (a & b & -> & Hb). unfold Py.rfind.
    rewrite (rfind_from_char_last 0 c a b Hb).
    replace (Z.to_nat (Z.of_nat (0 + String.length a) + 1))
      with (String.length (a +:+ String c "")) by (rewrite sapp_length; simpl; lia).
    replace (a +:+ String c b) with ((a +:+ String c "") +:+ b)
      by (by rewrite sapp_assoc).
    by rewrite drop_app_length.
  - apply rfind_char_none in Hs as Hr. rewrite Hr. exact Hs.
Qed.

Lemma find_from_none (i : nat) (s p : string) :
  Py.find_from i s p = -1 ↔ ¬ occurs p s.
Proof.
  revert i. induction s as [|c s IH]; intros i; cbn [Py.find_from].
  - destruct (Py.startswith "" p) eqn:E.
    + split; [lia|]. intros H. destruct H. apply startswith_spec in E as [b ->].
      by exists "", b.
    + split; [|done]. intros _ (a & b & H).
      destruct a as [|x a]; [|by rewrite sapp_cons in H].
      rewrite sapp_nil_l in H. assert (Py.startswith "" p = true); [|congruence].
      apply startswith_spec. by exists b.
  - destruct (Py.startswith (String c s) p) eqn:E.
    + split; [lia|]. intros H. destruct H. apply startswith_spec in E as [b ->].
      by exists "", b.
    + rewrite IH. split; intros H (a & b & Hab); apply H.
      * destruct a as [|x a].
        -- rewrite sapp_nil_l in Hab.
           assert (Py.startswith (String c s) p = true); [|congruence].
           apply startswith_spec. by exists b.
        -- rewrite sapp_cons in Hab. injection Hab as -> ->. by exists a, b.
      * exists (String c a), b. by rewrite sapp_cons, Hab.
Qed.

Lemma find_from_length (i : nat) (s p : string) :
  0 ≤ Py.find_from i s p → (String.length p ≤ String.length s)%nat.
Proof.
  revert i. induction s as [|c s IH]; intros i; cbn [Py.find_from].
  - destruct (Py.startswith "" p) eqn:E; [|lia]. intros _.
    by apply startswith_length.
  - destruct (Py.startswith (String c s) p) eqn:E.
    + intros _. by apply startswith_length.
    + intros H. apply IH in H. simpl. lia.
Qed.

(** The first occurrence stays the first when the text goes on. *)
Lemma find_from_app (i : nat) (x y p : string) :
  0 ≤ Py.find_from i x p →
  Py.find_from i (x +:+ y) p = Py.find_from i x p.
Proof.
  revert i. induction x as [|c x IH]; intros i; cbn [Py.find_from].
  - destruct (Py.startswith "" p) eqn:E; [|lia]. intros _.
    apply startswith_spec in E as [b E]. destruct p; [|done].
    rewrite sapp_nil_l. by destruct y.
  - rewrite sapp_cons. cbn [Py.find_from]. rewrite <- sapp_cons.
    destruct (Py.startswith (String c x) p) eqn:E.
    + intros _. by rewrite (startswith_app _ y _ E).
    + intros H.
      destruct (Py.startswith (String c x +:+ y) p) eqn:E'; [|by apply IH].
      apply startswith_app_inv in E'; [congruence|].
      apply find_from_length in H. simpl. lia.
Qed.

Lemma find_from_here (i : nat) (s p : string) :
  Py.startswith s p = true → Py.find_from i s p = Z.of_nat i.
Proof. intros H. destruct s; cbn [Py.find_from]; by rewrite H. Qed.

Lemma replace_char_gone (a b : ascii) (s : string) :
  a ≠ b → char_in a (Py.replace_char a b s) = false.
Proof.
  intros Hab. unfold Py.replace_char.
  induction s as [|c s IH]; [reflexivity|]. cbn [Py.map_chars char_in].
  rewrite IH, orb_false_r. destruct (Ascii.eqb_spec c a) as [->|Hc].
  - apply ascii_eqb_false. congruence.
  - by apply ascii_eqb_false.
Qed.

(** ** The package of a path *)

Lemma rfind_char_app (c : ascii) (a b : string) :
  char_in c b = false →
  Py.rfind (a +:+ String c b) (String c "") = Z.of_nat (String.length a).
Proof. intros H. unfold Py.rfind. by rewrite rfind_from_char_last. Qed.

Lemma slice_middle (a d b : string) :
  Py.slice (a +:+ d +:+ b) (String.length a)
    (String.length a + String.length d) = d.
Proof.
  unfold Py.slice. rewrite drop_app_length.
  replace (String.length a + String.length d - String.length a)%nat
    with (String.length d) by lia.
  apply take_app_length.
Qed.

(** X13: [guess_package] returns nothing exactly for the paths without
    slash and the paths without [src/main/java]; a package it returns has
    no slash. *)
Theorem guess_package_none (path : string) :
  (guess_package path = None
   ↔ char_in "/" path = false ∨ ¬ occurs "src/main/java" path)
  ∧ (∀ package, guess_package path = Some package →
       char_in "/" package = false).
Proof.
  unfold guess_package. split.
  - destruct (Py.rfind path "/" =? -1) eqn:Eh.
    + apply Z.eqb_eq, rfind_char_none in Eh. split; [by left|done].
    + apply Z.eqb_neq in Eh.
      assert (char_in "/" path ≠ false) as Hs
        by (intros H; by apply rfind_char_none in H).
      destruct (Py.find path "src/main/java" =? -1) eqn:El.
      * apply Z.eqb_eq, find_from_none in El. split; [by right|done].
      * apply Z.eqb_neq in El. split; [done|]. intros [H|H]; [done|].
        by apply (proj2 (find_from_none 0 _ _)) in H.
  - intros package.
    destruct (Py.rfind path "/" =? -1); [done|].
    destruct (Py.find path "src/main/java" =? -1); [done|].
    intros [= <-]. by apply replace_char_gone.
Qed.

(** X14: for a path made of a root, [src/main/java/], a directory, a
    slash and a file name without slash, where the [src/main/java] after
    the root is the first of the path, the package is the directory with
    dots for slashes; for a file right under [src/main/java/] the package
    is the empty text, not [None]. *)
Theorem guess_package_path (root dir file : string) :
  Py.find (root +:+ "src/main/java") "src/main/java"
  = Z.of_nat (String.length root) →
  char_in "/" file = false →
  guess_package (root +:+ "src/main/java/" +:+ dir +:+ "/" +:+ file)
  = Some (Py.replace_char "/" "." dir)
  ∧ guess_package (root +:+ "src/main/java/" +:+ file) = Some "".
Proof.
  intros Hfind Hfile. unfold guess_package. split.
  - replace (root +:+ "src/main/java/" +:+ dir +:+ "/" +:+ file)
      with ((root +:+ "src/main/java/" +:+ dir) +:+ String "/" file)
      by (by rewrite !sapp_assoc).
    rewrite (rfind_char_app "/" _ file Hfile).
    replace ((root +:+ "src/main/java/" +:+ dir) +:+ String "/" file)
      with ((root +:+ "src/main/java") +:+ ("/" +:+ dir +:+ "/" +:+ file))
      by (by rewrite !sapp_assoc).
    unfold Py.find in *. rewrite find_from_app; [|lia]. rewrite Hfind.
    destruct (Z.of_nat (String.length (root +:+ "src/main/java/" +:+ dir))
              =? -1) eqn:E1; [apply Z.eqb_eq in E1; lia|].
    destruct (Z.of_nat (String.length root) =? -1) eqn:E2;
      [apply Z.eqb_eq in E2; lia|].
    f_equal. f_equal.
    replace ((root +:+ "src/main/java") +:+ "/" +:+ dir +:+ "/" +:+ file)
      with ((root +:+ "src/main/java/") +:+ dir +:+ ("/" +:+ file))
      by (by rewrite !sapp_assoc).
    rewrite <- (slice_middle (root +:+ "src/main/java/") dir ("/" +:+ file))
      at 3.
    f_equal.
    + rewrite sapp_length. simpl. lia.
    + rewrite !sapp_length. simpl. lia.
  - replace (root +:+ "src/main/java/" +:+ file)
      with ((root +:+ "src/main/java") +:+ String "/" file)
      by (by rewrite !sapp_assoc).
    rewrite (rfind_char_app "/" _ file Hfile).
    unfold Py.find in *. rewrite find_from_app; [|lia]. rewrite Hfind.
    destruct (Z.of_nat (String.length (root +:+ "src/main/java")) =? -1)
      eqn:E1; [apply Z.eqb_eq in E1; lia|].
    destruct (Z.of_nat (String.length root) =? -1) eqn:E2;
      [apply Z.eqb_eq in E2; lia|].
    f_equal. unfold Py.slice. rewrite sapp_length. simpl String.length.
    replace (Z.to_nat (Z.of_nat (String.length root + 13))
             - Z.to_nat (Z.of_nat (String.length root) + Z.of_nat 13 + 1))%nat
      with 0%nat by lia.
    reflexivity.
Qed.

(** ** The base class *)

(** X15: the name after [extends] is what follows the last dot of the
    option: it has no dot, and the option is that name after a prefix that
    is empty or ends with a dot. *)
Theorem simple_name_last_segment (canonical : string) :
  char_in "." (simple_name canonical) = false
  ∧ ∃ prefix, canonical = prefix +:+ simple_name canonical
              ∧ (prefix = "" ∨ Py.endswith prefix "." = true).
Proof.
  unfold simple_name. split; [apply drop_after_rfind|].
  destruct (char_in "." canonical) eqn:Hs.
  - destruct (char_in_last "." canonical Hs) as (a & b & -> & Hb).
    rewrite (rfind_char_app "." a b Hb). exists (a +:+ ".").
    replace (Z.to_nat (Z.of_nat (String.length a) + 1))
      with (String.length (a +:+ ".")) by (rewrite sapp_length; simpl; lia).
    replace (a +:+ String "." b) with ((a +:+ ".") +:+ b)
      by (by rewrite sapp_assoc).
    rewrite drop_app_length. split; [reflexivity|]. right.
    unfold Py.endswith. rewrite sapp_length. simpl String.length.
    replace (String.length a + 1 - 1)%nat with (String.length a) by lia.
    rewrite drop_app_length.
    apply andb_true_intro. split; [apply Nat.leb_le; lia|reflexivity].
  - apply rfind_char_none in Hs. rewrite Hs. exists "". by split; [|left].
Qed.

(** ** The output file *)

(** X16: the class name the driver takes from an output path that names
    a [.java] file has no slash; otherwise the file is named after the
    class of the table, [.java] added, in the directory of the option,
    which gets a slash at its end unless it has one. *)
Theorem output_target_file (ap : Args.t) (table : SQLTable) (o : string) :
  Args.output ap = Some o →
  (0 ≤ Py.rfind o ".java" →
   char_in "/" (output_target ap table).1 = false
   ∧ (output_target ap table).2 = o)
  ∧ (Py.rfind o ".java" = -1 → o ≠ "" →
     ∃ dir, output_target ap table
            = (supply_java_class_name table,
               dir +:+ supply_java_class_name table +:+ ".java")
            ∧ Py.endswith dir "/" = true
            ∧ (dir = o ∨ Py.endswith o "/" = false ∧ dir = o +:+ "/")).
Proof.
  intros Ho. unfold output_target. rewrite Ho. simpl default. split.
  - intros Hhi. destruct o as [|c o]; [by vm_compute in Hhi|].
    cbn [Py.truthy_opt Py.truthy].
    destruct (-1 <? Py.rfind (String c o) ".java") eqn:E;
      [|apply Z.ltb_ge in E; lia].
    cbn [fst snd]. split; [|reflexivity].
    unfold Py.slice. apply take_no_char.
    replace (if Py.rfind (String c o) "/" =? -1 then 0
             else Py.rfind (String c o) "/" + 1)
      with (Py.rfind (String c o) "/" + 1)
      by (destruct (Py.rfind (String c o) "/" =? -1) eqn:E';
          [apply Z.eqb_eq in E'; by rewrite E'|reflexivity]).
    apply drop_after_rfind.
  - intros Hhi Hne. destruct o as [|c o]; [done|].
    cbn [Py.truthy_opt Py.truthy]. rewrite Hhi. change (-1 <? -1) with false.
    cbv iota. destruct (Py.endswith (String c o) "/") eqn:E.
    + exists (String c o). by repeat split; [|left].
    + exists (String c o +:+ "/"). split; [reflexivity|].
      split; [|by right]. unfold Py.endswith. rewrite sapp_length.
      simpl String.length.
      replace (S (String.length o) + 1 - 1)%nat with (S (String.length o))
        by lia.
      change (S (String.length o)) with (String.length (String c o)) at 2.
      rewrite drop_app_length.
      apply andb_true_intro. split; [apply Nat.leb_le; lia|reflexivity].
Qed.

(** ** The loop of the driver *)

Lemma output_target_named (ap : Args.t) (table : SQLTable) (o : string) :
  Args.output ap = Some o → 0 ≤ Py.rfind o ".java" →
  (output_target ap table).2 = o.
Proof.
  intros Ho Hhi. unfold output_target. rewrite Ho. simpl default.
  destruct o as [|c o]; [by vm_compute in Hhi|].
  cbn [Py.truthy_opt Py.truthy].
  destruct (-1 <? Py.rfind (String c o) ".java") eqn:E; [reflexivity|].
  apply Z.ltb_ge in E. lia.
Qed.

Section DriverProperties.

Variable sm : string → string → bool.
Variable os : gmap string string → string → string → write_answer.

Lemma main_body_run (ap : Args.t) (table : SQLTable) (w : World) :
  main_body sm os ap table w
  = iteration_outcome
      (os (w_files w) (output_target ap table).2 (rendered sm ap table))
      ap table (output_target ap table).2 (rendered sm ap table) w.
Proof.
  unfold rendered, main_body, iteration_outcome, iteration_lines, fn_line,
    report_line, output_target, write_file, print.
  destruct (Args.output ap) as [[|c o]|];
    cbn [Py.truthy_opt Py.truthy default from_option id andb negb
         w_stdout w_files fst snd].
  - destruct (os _ _ _); cbn [w_stdout w_files]; by rewrite <- ?app_assoc.
  - destruct (-1 <? Py.rfind (String c o) ".java");
      cbn [negb w_stdout w_files fst snd];
      destruct (os _ _ _); cbn [w_stdout w_files]; by rewrite <- ?app_assoc.
  - destruct (os _ _ _); cbn [w_stdout w_files]; by rewrite <- ?app_assoc.
Qed.

(** X17: an iteration of the driver for a table the reader fails on
    raises the exception of the reader and changes nothing, no line
    printed and no file written.  For a table the reader returns it prints
    the empty line, the table and, for an output directory, the line of
    the file name; what follows is for the operating system to say, asked
    for the file name and the text [generate_for_table] gives: the text
    is written, replacing what the file held, and the report printed; or
    [open] raises, the exception leaves the iteration and no file has
    changed; or writing raises, the exception leaves the iteration and
    the file holds what the operating system left of it. *)
Theorem main_iteration_effect (cursor : Cursor) (ap : Args.t)
    (name : string) (w : World) :
  (∀ e, generate_for_table sm cursor ap name = Raise e →
        main_iteration sm os cursor ap name w = (Failed (FromReader e), w))
  ∧ (∀ fn text,
       generate_for_table sm cursor ap name = Ok (fn, text) →
       ∃ table,
         parseSqlTable cursor name ap = Ok table
         ∧ main_iteration sm os cursor ap name w
           = iteration_outcome (os (w_files w) fn text) ap table fn text w).
Proof.
  unfold generate_for_table, main_iteration.
  destruct (parseSqlTable cursor name ap) as [table|e]; simpl.
  - split; [by destruct (output_target ap table)|].
    intros fn text H. exists table. split; [reflexivity|].
    rewrite main_body_run. unfold rendered.
    destruct (output_target ap table) as [cn fn']. by injection H as <- <-.
  - split; [by intros e' [= <-]|done].
Qed.

Lemma main_loop_app (cursor : Cursor) (ap : Args.t) (l1 l2 : list string)
    (w : World) :
  main_loop sm os cursor ap (l1 ++ l2) w
  = match main_loop sm os cursor ap l1 w with
    | (Done _, w') => main_loop sm os cursor ap l2 w'
    | (Failed e, w') => (Failed e, w')
    end.
Proof.
  revert w. induction l1 as [|name l1 IH]; intros w; [reflexivity|].
  cbn [app main_loop].
  destruct (main_iteration sm os cursor ap name w) as [[[]|e] w1];
    [apply IH|done].
Qed.

(** X18: the loop stops at the first table that fails: when the tables
    before a table have been processed, an exception of the reader on
    that table leaves the loop with the world as those tables left it,
    their files written, and so does any other exception of its
    iteration, with the world as the iteration left it; the tables after
    it are not looked at. *)
Theorem main_loop_stops (cursor : Cursor) (ap : Args.t)
    (pre post : list string) (name : string) (w w1 : World) :
  main_loop sm os cursor ap pre w = (Done tt, w1) →
  (∀ e, parseSqlTable cursor name ap = Raise e →
        main_loop sm os cursor ap (pre ++ name :: post) w
        = (Failed (FromReader e), w1))
  ∧ (∀ e w2, main_iteration sm os cursor ap name w1 = (Failed e, w2) →
       main_loop sm os cursor ap (pre ++ name :: post) w = (Failed e, w2)).
Proof.
  intros Hpre. split.
  - intros e He. rewrite main_loop_app, Hpre. cbn [main_loop].
    unfold main_iteration. by rewrite He.
  - intros e w2 He. rewrite main_loop_app, Hpre. cbn [main_loop].
    by rewrite He.
Qed.

Lemma main_iteration_files (cursor : Cursor) (ap : Args.t) (name o : string)
    (w : World) :
  Args.output ap = Some o → 0 ≤ Py.rfind o ".java" →
  ∀ k, k ≠ o →
  w_files (main_iteration sm os cursor ap name w).2 !! k = w_files w !! k.
Proof.
  intros Ho Hhi k Hk. unfold main_iteration.
  destruct (parseSqlTable cursor name ap) as [table|e]; [|reflexivity].
  rewrite main_body_run, (output_target_named _ table o Ho Hhi).
  unfold iteration_outcome. destruct (os _ _ _); cbn [snd w_files];
    by rewrite ?lookup_insert_ne.
Qed.

Lemma main_loop_files (cursor : Cursor) (ap : Args.t) (tables : list string)
    (o : string) (w : World) :
  Args.output ap = Some o → 0 ≤ Py.rfind o ".java" →
  ∀ k, k ≠ o →
  w_files (main_loop sm os cursor ap tables w).2 !! k = w_files w !! k.
Proof.
  intros Ho Hhi k Hk. revert w.
  induction tables as [|name rest IH]; intros w; [reflexivity|].
  cbn [main_loop].
  pose proof (main_iteration_files cursor ap name o w Ho Hhi k Hk) as Hf.
  destruct (main_iteration sm os cursor ap name w) as [[[]|e] w1];
    simpl in *; [|exact Hf].
  by rewrite IH.
Qed.

(** X19: when the output option names a [.java] file and several tables
    are requested, every table is written to that one file under the class
    name of the path: after a loop that succeeds, every file having been
    written, the file holds the class of the last table alone, and no
    other file has changed. *)
Theorem main_loop_one_file (cursor : Cursor) (ap : Args.t)
    (pre : list string) (name o : string) (w w' : World) :
  Args.output ap = Some o → 0 ≤ Py.rfind o ".java" →
  main_loop sm os cursor ap (pre ++ [name]) w = (Done tt, w') →
  ∃ table,
    parseSqlTable cursor name ap = Ok table
    ∧ w_files w'
      = <[ o := generate_java_class sm table ap
                  (Some (output_target ap table).1) (guess_package o) ]>
          (w_files w).
Proof.
  intros Ho Hhi Hloop. rewrite main_loop_app in Hloop.
  pose proof (main_loop_files cursor ap pre o w Ho Hhi) as Hf.
  destruct (main_loop sm os cursor ap pre w) as [[[]|e] w1]; [|done].
  simpl in Hf. cbn [main_loop] in Hloop. unfold main_iteration in Hloop.
  destruct (parseSqlTable cursor name ap) as [table|e]; [|done].
  exists table. split; [reflexivity|].
  rewrite main_body_run in Hloop. unfold rendered in Hloop.
  rewrite (output_target_named _ table o Ho Hhi) in Hloop.
  unfold iteration_outcome in Hloop.
  destruct (os _ _ _); [|done..]. injection Hloop as <-. cbn [w_files].
  apply map_eq. intros k. destruct (decide (o = k)) as [->|Hk].
  - by rewrite !lookup_insert_eq.
  - rewrite !lookup_insert_ne by done. apply Hf. congruence.
Qed.

(** Without the table option the driver fails at once, nothing printed and
    nothing written; with one table name, without comma, it runs the loop
    on that name. *)
Lemma main_tables_cases (cursor : Cursor) (ap : Args.t) (w : World) :
  (Args.table ap = None →
   main_tables sm os cursor ap w
   = (Failed (AttributeError "'NoneType' object has no attribute 'split'"),
      w))
  ∧ (∀ table, Args.table ap = Some table → char_in "," table = false →
       main_tables sm os cursor ap w = main_loop sm os cursor ap [table] w).
Proof.
  unfold main_tables. split; [by intros ->|]. intros table -> H.
  assert (split_char "," table = [table]) as ->; [|reflexivity].
  induction table as [|d s IH]; [reflexivity|]. cbn [char_in split_char] in *.
  apply orb_false_elim in H as [Hd Hs]. by rewrite Hd, (IH Hs).
Qed.

End DriverProperties.

(** ** The requested tables *)

Lemma split_char_cons (c : ascii) (s : string) :
  ∃ piece pieces, split_char c s = piece :: pieces.
Proof.
  induction s as [|d s (piece & pieces & IH)]; [by exists "", []|].
  cbn [split_char]. destruct (Ascii.eqb d c); [by eexists _, _|].
  rewrite IH. by eexists _, _.
Qed.

Lemma join_char_cons (c : ascii) (a b : string) (l : list string) :
  join_char c (a :: b :: l) = a +:+ String c (join_char c (b :: l)).
Proof. reflexivity. Qed.

(** X20: the table names of the [-table] option are the pieces between
    its commas: there is at least one, none has a comma, and joined with
    commas they give the option back; the empty option gives one table
    with the empty name. *)
Theorem split_char_pieces (c : ascii) (s : string) :
  split_char c s ≠ []
  ∧ Forall (λ piece, char_in c piece = false) (split_char c s)
  ∧ join_char c (split_char c s) = s
  ∧ (char_in c s = false → split_char c s = [s])
  ∧ split_char c "" = [""].
Proof.
  split; [|split; [|split; [|split; [|reflexivity]]]]; cycle 3.
  { induction s as [|d s IH]; [reflexivity|]. cbn [char_in split_char].
    intros H. apply orb_false_elim in H as [Hd Hs]. by rewrite Hd, (IH Hs). }
  - by destruct (split_char_cons c s) as (piece & pieces & ->).
  - induction s as [|d s IH]; [by repeat constructor|].
    cbn [split_char]. destruct (Ascii.eqb d c) eqn:E; [by constructor|].
    destruct (split_char_cons c s) as (piece & pieces & Hs).
    rewrite Hs in *. inversion IH as [|? ? Hp Hps]; subst.
    constructor; [|exact Hps]. cbn [char_in]. by rewrite E, Hp.
  - induction s as [|d s IH]; [reflexivity|].
    cbn [split_char]. destruct (Ascii.eqb_spec d c) as [->|Hd].
    + destruct (split_char_cons c s) as (piece & pieces & Hs).
      rewrite Hs in *. by rewrite join_char_cons, sapp_nil_l, IH.
    + destruct (split_char_cons c s) as (piece & pieces & Hs).
      rewrite Hs in *. destruct pieces as [|p2 ps].
      * simpl in *. by rewrite IH.
      * rewrite join_char_cons in *. by rewrite sapp_cons, IH.
Qed.

(** ** The frame of the class *)

Lemma startswith_prefix (a b : string) : Py.startswith (a +:+ b) a = true.
Proof. apply startswith_spec. by exists b. Qed.

Lemma endswith_suffix (a b : string) : Py.endswith (a +:+ b) b = true.
Proof.
  unfold Py.endswith. rewrite sapp_length.
  replace (String.length a + String.length b - String.length b)%nat
    with (String.length a) by lia.
  rewrite drop_app_length. apply andb_true_intro.
  split; [apply Nat.leb_le; lia|apply String.eqb_refl].
Qed.

(** X21: whatever the table and the options, the text of the class starts
    with the package declaration, when a package is given, and ends with
    the closing brace and a line feed. *)
Theorem generate_java_class_frame (sm : string → string → bool)
    (table : SQLTable) (ap : Args.t) (spec_class_name package : option string) :
  Py.startswith (generate_java_class sm table ap spec_class_name package)
    (package_decl package) = true
  ∧ Py.endswith (generate_java_class sm table ap spec_class_name package)
      ("}" +:+ Py.nl) = true.
Proof.
  rewrite generate_java_class_sections. split.
  - unfold preamble. rewrite !sapp_assoc. apply startswith_prefix.
  - unfold class_text. rewrite <- !sapp_assoc. rewrite sapp_assoc.
    apply endswith_suffix.
Qed.

(** ** The tables the reader returns *)

(** X22: in a table the reader returns every field has one of the five
    target types, a column name without backtick and a Java name without
    underscore, and [is_type_used] holds of these five types at most. *)
Theorem parsed_table_fields (cursor : Cursor) (name : string) (args : Args.t)
    (table : SQLTable) :
  parseSqlTable cursor name args = Ok table →
  Forall (λ f, java_type f ∈ java_types
               ∧ char_in "`" (sql_field_name f) = false
               ∧ char_in "_" (java_field_name f) = false)
    (fields table)
  ∧ (∀ jt, is_type_used table jt = true → jt ∈ java_types).
Proof.
  intros Hparse.
  destruct (parseSqlTable_ok _ _ _ _ Hparse) as (_ & (c & Hinit) & Hrows).
  assert (Forall (λ f, java_type f ∈ java_types
                       ∧ char_in "`" (sql_field_name f) = false
                       ∧ char_in "_" (java_field_name f) = false)
            (fields table)) as Hall.
  { clear Hinit Hparse.
    induction Hrows as [|r f rows fs (Hn & Ht & Hj & _) _ IH];
      [constructor|]. constructor; [|exact IH].
    split; [by apply (to_java_type_ok (extract_sql_type r.2))|].
    split; [rewrite Hn; apply remove_char_gone|].
    rewrite Hj, to_camel_case_scan. apply camel_scan_no_underscore. }
  split; [exact Hall|]. intros jt Hjt. rewrite Hinit in Hjt.
  rewrite is_type_used_init in Hjt. apply uses_type_spec in Hjt as (f & Hf & <-).
  rewrite Forall_forall in Hall. by destruct (Hall f Hf).
Qed.

(** ** Instances of the further theorems *)

Lemma to_camel_case_length_example :
  is_ascii "__order_no_" = true
  ∧ String.length (to_camel_case "__order_no_") = 7%nat.
Proof.
  split; [reflexivity|].
  exact (to_camel_case_length "__order_no_" eq_refl).
Defined.

Lemma to_camel_case_without_underscore_example :
  char_in "_" "userId" = false ∧ to_camel_case "userId" = "userid".
Proof.
  split; [reflexivity|].
  exact (to_camel_case_without_underscore "userId" eq_refl).
Defined.

Lemma first_char_case_example :
  is_ascii "orderNum" = true
  ∧ first_char_lower (first_char_upper "orderNum")
    = first_char_lower "orderNum".
Proof.
  split; [reflexivity|].
  destruct (first_char_case "orderNum" eq_refl) as (_ & _ & _ & _ & _ & _ & H & _).
  exact H.
Defined.

Lemma to_java_type_case_example :
  is_ascii "VarChar" = true
  ∧ to_java_type (Py.upper "VarChar") = to_java_type "VarChar".
Proof.
  split; [reflexivity|]. exact (proj1 (to_java_type_case "VarChar" eq_refl)).
Defined.

Lemma parseSqlTable_success_example :
  table_comment_rows example_cursor "t_order" = [Some ""]
  ∧ parseSqlTable example_cursor "t_order" example_args
    = Ok (SQLTable_init "t_order" (Some "")
            (map (row_field (fetch_column_info example_cursor "t_order"))
               (desc_rows example_cursor "t_order"))).
Proof.
  split; [reflexivity|].
  apply (parseSqlTable_success example_cursor "t_order" example_args
           (Some "") []).
  - repeat constructor; by eexists; vm_compute.
  - repeat constructor; by eexists; vm_compute.
  - reflexivity.
Defined.

Lemma parseSqlTable_unknown_type_example :
  desc_rows cursor_decimal "t_price"
  = [("id", "int")] ++ ("amount", "decimal(10,2)") :: [("note", "blob")]
  ∧ parseSqlTable cursor_decimal "t_price" example_args
    = Raise (ValueError
               "Unable to find corresponding java type for decimal(10,2)").
Proof.
  split; [reflexivity|].
  apply (parseSqlTable_unknown_type cursor_decimal "t_price" example_args
           [("id", "int")] [("note", "blob")] ("amount", "decimal(10,2)")).
  - reflexivity.
  - repeat constructor. by eexists; vm_compute.
  - vm_compute. reflexivity.
Defined.

Lemma parseSqlTable_missing_comment_example :
  desc_rows cursor_no_comment "t_user"
  = [("id", "int")] ++ ("`name`", "varchar(32)") :: []
  ∧ parseSqlTable cursor_no_comment "t_user" example_args
    = Raise (KeyError "name").
Proof.
  split; [reflexivity|].
  apply (parseSqlTable_missing_comment cursor_no_comment "t_user" example_args
           [("id", "int")] [] ("`name`", "varchar(32)")).
  - reflexivity.
  - repeat constructor; by eexists; vm_compute.
  - repeat constructor. by eexists; vm_compute.
  - vm_compute. reflexivity.
Defined.

Lemma guess_package_path_example :
  Py.find ("/work/" +:+ "src/main/java") "src/main/java" = 6
  ∧ guess_package "/work/src/main/java/com/shop/Order.java" = Some "com.shop"
  ∧ guess_package "/work/src/main/java/Order.java" = Some "".
Proof.
  split; [reflexivity|].
  exact (guess_package_path "/work/" "com/shop" "Order.java" eq_refl eq_refl).
Defined.

Lemma output_target_file_example :
  Args.output example_args_output
  = Some "/work/src/main/java/com/shop/Order.java"
  ∧ char_in "/" (output_target example_args_output example_table).1 = false.
Proof.
  split; [reflexivity|].
  destruct (output_target_file example_args_output example_table
              "/work/src/main/java/com/shop/Order.java" eq_refl) as [H _].
  apply H. vm_compute. discriminate.
Defined.

Lemma main_loop_stops_example :
  ∃ w1,
    main_loop String.eqb os_writable cursor_shop example_args ["t_order"]
      example_world
    = (Done tt, w1)
    ∧ parseSqlTable cursor_shop "t_price" example_args
      = Raise (ValueError
                 "Unable to find corresponding java type for decimal(10,2)")
    ∧ main_loop String.eqb os_writable cursor_shop example_args
        (["t_order"] ++ "t_price" :: ["t_order"]) example_world
      = (Failed
           (FromReader
              (ValueError
                 "Unable to find corresponding java type for decimal(10,2)")),
         w1).
Proof.
  eexists. split; [vm_compute; reflexivity|].
  split; [vm_compute; reflexivity|].
  apply (proj1 (main_loop_stops String.eqb os_writable cursor_shop
                  example_args ["t_order"] ["t_order"] "t_price"
                  example_world _ eq_refl)).
  vm_compute. reflexivity.
Defined.

Lemma main_loop_one_file_example :
  ∃ w',
    main_loop String.eqb os_writable example_cursor example_args_output
      (["t_order"] ++ ["t_order"]) example_world
    = (Done tt, w')
    ∧ ∃ table,
        parseSqlTable example_cursor "t_order" example_args_output = Ok table
        ∧ w_files w'
          = <[ "/work/src/main/java/com/shop/Order.java"
               := generate_java_class String.eqb table example_args_output
                    (Some (output_target example_args_output table).1)
                    (guess_package "/work/src/main/java/com/shop/Order.java") ]>
              (w_files example_world).
Proof.
  eexists. split; [vm_compute; reflexivity|].
  apply (main_loop_one_file String.eqb os_writable example_cursor
           example_args_output ["t_order"] "t_order"
           "/work/src/main/java/com/shop/Order.java" example_world).
  - reflexivity.
  - vm_compute. discriminate.
  - vm_compute. reflexivity.
Defined.

(** With the output directory [missing_dir], which does not exist, the
    driver prints the first table and the line of the file name, and the
    [FileNotFoundError] of [open] leaves the loop on the first table. *)
Example driver_missing_dir :
  main_tables String.eqb os_missing_dir cursor_shop
    example_args_missing_dir example_world
  = (Failed (FileError "FileNotFoundError"
               "[Errno 2] No such file or directory: 'missing_dir/TOrder.java'"),
     mkWorld [""; SQLTable_str example_table; "fn: missing_dir"] ∅).
Proof. vm_compute. reflexivity. Qed.

Lemma parsed_table_fields_example :
  parseSqlTable example_cursor "t_order" example_args = Ok example_table
  ∧ ∀ jt, is_type_used example_table jt = true → jt ∈ java_types.
Proof.
  assert (parseSqlTable example_cursor "t_order" example_args
          = Ok example_table) as H by (vm_compute; reflexivity).
  split; [exact H|].
  exact (proj2 (parsed_table_fields example_cursor "t_order" example_args
                  example_table H)).
Defined.
